(** * Recipe recommender: the filtering core of [app.py]

    A shallow embedding of the functions of [app.py] that decide what the
    recommender returns: [load_recipes], [get_unique_values],
    [recommend_recipes], [display_recipe], the sidebar's initial values, the
    button handlers and the paginated result column, together with the
    pieces of the Python runtime they call ([str.strip], [str.lower],
    [str.split], [str.join], [sorted], [re.escape], [re.search]).

    Conventions of the embedding.
    - A Python [str] is a list of characters.  Characters are the 256 code
      points below U+0100 (Rocq's [ascii], read as Latin-1); their
      classification ([isspace], [isalnum], lower-casing) is the one Python
      gives to these code points.  Text with code points above U+00FF is
      outside the model.
    - A pandas [DataFrame] is the list of its rows in frame order, each row
      carrying its index label.  [pd.read_json] labels the rows of a JSON
      array [0, 1, 2, ...] (a [RangeIndex]).  Rows are typed, so a frame
      always has the recipe columns; the column-less [pd.DataFrame()] that
      [load_recipes] returns when loading fails is the empty list as well.
      The program only asks that frame whether it is [empty] (lines 38, 97,
      114-119 and 144) and never hands it to [recommend_recipes].
    - Case-insensitive matching ([re.IGNORECASE]) is equality after
      lower-casing, which is what it is on these 256 characters; beyond
      U+00FF Python also equates a few characters that [str.lower] keeps
      apart, so statements about what a term matches are statements about
      text below U+0100.
    - Python integers are [Z].
    - Code that can raise returns [option]; [None] stands for the exception. *)

From Stdlib Require Import Ascii NArith ZArith Bool DecimalString.
From stdpp Require Import base decidable list sorting strings.

(** Python [str]. *)
Abbreviation str := (list ascii).

(** A string literal of the source, as a [str]. *)
Definition py (s : string) : str := String.list_ascii_of_string s.

(** ** Characters and the [str] methods used by the program *)
Module PyStr.
Local Open Scope char_scope.

Definition ord (c : ascii) : N := N_of_ascii c.

Definition between (lo hi : N) (c : ascii) : bool :=
  ((lo <=? ord c) && (ord c <=? hi))%N.

Definition is_code (n : N) (c : ascii) : bool := (ord c =? n)%N.

(** [str.isspace] on one character: TAB..CR, FS..US, space, NEL, NBSP. *)
Definition isspace (c : ascii) : bool :=
  between 9 13 c || between 28 32 c || is_code 133 c || is_code 160 c.

(** Characters with a lower-case counterpart: A-Z and the Latin-1 capitals
    (U+00C0..U+00DE without the multiplication sign U+00D7). *)
Definition isupper (c : ascii) : bool :=
  between 65 90 c || (between 192 222 c && negb (is_code 215 c)).

Definition char_lower (c : ascii) : ascii :=
  if isupper c then ascii_of_N (ord c + 32) else c.

(** [str.isalnum] on one character: letters, decimal digits, and the Latin-1
    characters Python counts as alphabetic or numeric. *)
Definition isalnum (c : ascii) : bool :=
  between 48 57 c || between 65 90 c || between 97 122 c
  || is_code 170 c || is_code 181 c || is_code 186 c
  || is_code 178 c || is_code 179 c || is_code 185 c
  || between 188 190 c
  || between 192 214 c || between 216 246 c || between 248 255 c.

(** [s.lower()] *)
Definition lower (s : str) : str := char_lower <$> s.

(** [s.lstrip()], [s.rstrip()], [s.strip()] *)
Fixpoint lstrip (s : str) : str :=
  match s with
  | c :: s' => if isspace c then lstrip s' else s
  | [] => []
  end.

Definition rstrip (s : str) : str := reverse (lstrip (reverse s)).

Definition strip (s : str) : str := rstrip (lstrip s).

(** [s.split(sep)] for a one-character separator: always at least one
    piece, empty pieces are kept. *)
Fixpoint split (sep : ascii) (s : str) : list str :=
  match s with
  | [] => [[]]
  | c :: s' =>
      if decide (c = sep) then [] :: split sep s'
      else match split sep s' with
           | piece :: pieces => (c :: piece) :: pieces
           | [] => [[c]]
           end
  end.

(** Truth value of a [str]: non-empty. *)
Definition truthy (s : str) : Prop := s ≠ [].

#[global] Instance truthy_dec s : Decision (truthy s).
Proof. unfold truthy. apply _. Defined.

(** Python's [<=] on [str]: lexicographic on code points. *)
Fixpoint le (a b : str) : bool :=
  match a, b with
  | [], _ => true
  | _ :: _, [] => false
  | x :: a', y :: b' =>
      if (ord x <? ord y)%N then true
      else if (ord y <? ord x)%N then false
      else le a' b'
  end.

End PyStr.

(** ** The fragment of [re] the program uses *)
Module Re.
Import PyStr.
Local Open Scope char_scope.

(** [\w] for a [str] pattern. *)
Definition is_word (c : ascii) : bool := isalnum c || is_code 95 c.

(** The characters [re.escape] puts a backslash in front of
    ([re._special_chars_map]). *)
Definition special_chars : str := py "()[]{}?*+-|^$\.&~# " ++
  [ascii_of_N 9; ascii_of_N 10; ascii_of_N 13; ascii_of_N 11; ascii_of_N 12].

Definition is_special (c : ascii) : bool := bool_decide (c ∈ special_chars).

(** [re.escape(pattern)] *)
Fixpoint escape (pattern : str) : str :=
  match pattern with
  | [] => []
  | c :: p => if is_special c then "\" :: c :: escape p else c :: escape p
  end.

(** Parsed patterns.  The fragment has literals, [.] and [\b]; this is
    enough for every pattern the program builds (see
    [parse_word_pattern]). *)
Inductive atom : Type :=
| Literal (c : ascii)
| AnyChar
| WordBoundary.

Definition is_ascii_alnum (c : ascii) : bool :=
  between 48 57 c || between 65 90 c || between 97 122 c.

(** Operators whose meaning is not modelled; a pattern using one of them
    unescaped is rejected by [parse]. *)
Definition operators : str := py "*+?{}[]()|^$".

(** The pattern parser.  A backslash followed by [b] is the word boundary;
    followed by another ASCII letter or digit it is a character class, a
    back-reference or an error, none of which is in the fragment; followed
    by any other character it makes that character a literal. *)
Fixpoint parse (pattern : str) : option (list atom) :=
  match pattern with
  | [] => Some []
  | "\" :: rest =>
      match rest with
      | [] => None
      | c :: p =>
          if decide (c = "b") then cons WordBoundary <$> parse p
          else if is_ascii_alnum c then None
          else cons (Literal c) <$> parse p
      end
  | "." :: p => cons AnyChar <$> parse p
  | c :: p =>
      if bool_decide (c ∈ operators) then None
      else cons (Literal c) <$> parse p
  end.

Definition opt_word (c : option ascii) : bool :=
  match c with Some c => is_word c | None => false end.

(** [\b] holds between [prev] and [next] when exactly one of them is a
    word character; the two ends of the string count as non-word. *)
Definition at_boundary (prev next : option ascii) : bool :=
  xorb (opt_word prev) (opt_word next).

(** A literal against a character of the subject, with or without
    [re.IGNORECASE]. *)
Definition literal_matches (ignorecase : bool) (c d : ascii) : bool :=
  if ignorecase then bool_decide (char_lower d = char_lower c)
  else bool_decide (d = c).

(** Match the atoms at the current position; [prev] is the character just
    before it. *)
Fixpoint match_here (ignorecase : bool) (atoms : list atom)
    (prev : option ascii) (s : str) : bool :=
  match atoms with
  | [] => true
  | WordBoundary :: atoms' =>
      at_boundary prev (head s) && match_here ignorecase atoms' prev s
  | Literal c :: atoms' =>
      match s with
      | d :: s' =>
          literal_matches ignorecase c d
          && match_here ignorecase atoms' (Some d) s'
      | [] => false
      end
  | AnyChar :: atoms' =>
      match s with
      | d :: s' =>
          negb (is_code 10 d) && match_here ignorecase atoms' (Some d) s'
      | [] => false
      end
  end.

(** Try every start position, left to right, the end of the string
    included. *)
Fixpoint search_from (ignorecase : bool) (atoms : list atom)
    (prev : option ascii) (s : str) : bool :=
  match_here ignorecase atoms prev s
  || match s with
     | d :: s' => search_from ignorecase atoms (Some d) s'
     | [] => false
     end.

(** [bool(re.search(pattern, string, flags))]; [None] is [re.error]. *)
Definition search (pattern string : str) (ignorecase : bool) : option bool :=
  atoms ← parse pattern; Some (search_from ignorecase atoms None string).

End Re.

(** ** Data model *)

(** One object of [recipes.json]. *)
Record Recipe : Type := {
  name : str;
  cuisine : str;
  meal_type : str;
  difficulty : str;
  prep_time_minutes : Z;
  cook_time_minutes : Z;
  ingredients : list str;
  image_url : option str;
  instructions : str
}.

(** A row of the loaded frame: the JSON columns and the derived column
    [ingredients_list]. *)
Record Row : Type := {
  recipe :> Recipe;
  ingredients_list : list str
}.

#[global] Instance Recipe_eq_dec : EqDecision Recipe.
Proof. solve_decision. Defined.

#[global] Instance Row_eq_dec : EqDecision Row.
Proof. solve_decision. Defined.

(** A frame: rows in frame order, each with its index label. *)
Abbreviation DataFrame := (list (nat * Row)).

(** The frame pandas builds from a sequence of records: labels 0, 1, 2, ... *)
Definition RangeIndex (rows : list Row) : DataFrame :=
  zip (seq 0 (length rows)) rows.

(** [df.empty] *)
Definition empty (df : DataFrame) : bool := bool_decide (df = []).

(** [df.loc[labels]]: for each requested label in turn, the rows carrying
    it; a label the frame does not have is a [KeyError]. *)
Fixpoint loc (df : DataFrame) (labels : list nat) : option DataFrame :=
  match labels with
  | [] => Some []
  | label :: labels' =>
      match filter (λ ir : nat * Row, ir.1 = label) df with
      | [] => None
      | hit => rest ← loc df labels'; Some (hit ++ rest)
      end
  end.

(** ** [load_recipes] *)

(** The lambda applied to the [ingredients] column. *)
Definition normalize (item : str) : str := PyStr.lower (PyStr.strip item).

Definition with_ingredients_list (r : Recipe) : Row :=
  {| recipe := r; ingredients_list := normalize <$> ingredients r |}.

(** [content] is what [pd.read_json] gets out of the file, as pandas types
    it: [None] when the file is missing or does not parse, in which case an
    empty frame is returned.  The records are the rows after pandas has
    chosen the column types; a file whose text column holds only values
    that read as numbers, which pandas re-types, has no counterpart here.
    The frame returned on failure has no columns in pandas and is the empty
    list here. *)
Definition load_recipes (content : option (list Recipe)) : DataFrame :=
  match content with
  | Some records => RangeIndex (with_ingredients_list <$> records)
  | None => []
  end.

(** ** [get_unique_values] *)

(** The categorical columns the sidebar asks for. *)
Inductive column : Type := col_cuisine | col_meal_type | col_difficulty.

Definition cell (col : column) (r : Row) : str :=
  match col with
  | col_cuisine => cuisine r
  | col_meal_type => meal_type r
  | col_difficulty => difficulty r
  end.

(** [Series.unique()]: distinct values in order of first appearance. *)
Fixpoint unique_from (seen : list str) (values : list str) : list str :=
  match values with
  | [] => []
  | v :: values' =>
      if decide (v ∈ seen) then unique_from seen values'
      else v :: unique_from (v :: seen) values'
  end.

Definition unique (values : list str) : list str := unique_from [] values.

(** The order [sorted] uses on [str]. *)
Definition str_le (a b : str) : Prop := PyStr.le a b = true.

#[global] Instance str_le_dec a b : Decision (str_le a b).
Proof. unfold str_le. apply _. Defined.

(** [sorted(values)] *)
Definition sorted (values : list str) : list str := merge_sort str_le values.

Definition get_unique_values (df : DataFrame) (col : column) : list str :=
  if negb (empty df)
  then py "Any" :: sorted (unique ((λ ir : nat * Row, cell col ir.2) <$> df))
  else [py "Any"].

(** ** [recommend_recipes] *)

(** [any(f(x) for x in xs)] and [all(f(x) for x in xs)] over a generator
    whose body may raise: evaluation stops at the first deciding element. *)
Fixpoint any_of {A} (f : A → option bool) (xs : list A) : option bool :=
  match xs with
  | [] => Some false
  | x :: xs' => b ← f x; if b : bool then Some true else any_of f xs'
  end.

Fixpoint all_of {A} (f : A → option bool) (xs : list A) : option bool :=
  match xs with
  | [] => Some true
  | x :: xs' => b ← f x; if b : bool then all_of f xs' else Some false
  end.

(** The condition of line 72 for one row. *)
Definition has_all_ingredients (search_ingredients recipe_ingredients : list str)
    : option bool :=
  all_of (λ search_ing,
    any_of (λ recipe_ing,
      Re.search (py "\b" ++ Re.escape search_ing ++ py "\b") recipe_ing true)
      recipe_ingredients)
    search_ingredients.

(** The loop of lines 68-73: the labels of the rows that pass, in frame
    order. *)
Fixpoint matched_indices (search_ingredients : list str) (rows : DataFrame)
    : option (list nat) :=
  match rows with
  | [] => Some []
  | (index, row) :: rows' =>
      b ← has_all_ingredients search_ingredients (ingredients_list row);
      rest ← matched_indices search_ingredients rows';
      Some (if b : bool then index :: rest else rest)
  end.

(** The list comprehension of line 66. *)
Definition search_terms (search_ingredients_str : str) : list str :=
  (λ s, PyStr.lower (PyStr.strip s))
    <$> filter (λ s, PyStr.truthy (PyStr.strip s))
          (PyStr.split ","%char search_ingredients_str).

Definition recommend_recipes (df : DataFrame)
    (selected_cuisine selected_meal_type selected_difficulty : str)
    (min_prep_time max_prep_time min_cook_time max_cook_time : Z)
    (search_ingredients_str : str) : option DataFrame :=
  let filtered_df := df in
  let filtered_df :=
    if decide (selected_cuisine ≠ py "Any")
    then filter (λ ir : nat * Row, cuisine ir.2 = selected_cuisine) filtered_df
    else filtered_df in
  let filtered_df :=
    if decide (selected_meal_type ≠ py "Any")
    then filter (λ ir : nat * Row, meal_type ir.2 = selected_meal_type) filtered_df
    else filtered_df in
  let filtered_df :=
    if decide (selected_difficulty ≠ py "Any")
    then filter (λ ir : nat * Row, difficulty ir.2 = selected_difficulty) filtered_df
    else filtered_df in
  let filtered_df :=
    filter (λ ir : nat * Row,
      (prep_time_minutes ir.2 >= min_prep_time)%Z ∧
      (prep_time_minutes ir.2 <= max_prep_time)%Z ∧
      (cook_time_minutes ir.2 >= min_cook_time)%Z ∧
      (cook_time_minutes ir.2 <= max_cook_time)%Z) filtered_df in
  if decide (PyStr.truthy search_ingredients_str) then
    let search_ingredients := search_terms search_ingredients_str in
    if decide (search_ingredients ≠ []) then
      indices ← matched_indices search_ingredients filtered_df;
      loc filtered_df indices
    else Some filtered_df
  else Some filtered_df.

(** ** The "Surprise Me!" button *)

Record SessionState : Type := {
  recommended_recipes : option DataFrame;
  display_count : option nat
}.

(** [df.sample(1).iloc[0]]: [draw] is the random generator's output, reduced
    to a position of the frame; sampling an empty frame raises. *)
Definition sample1 (df : DataFrame) (draw : nat) : option (nat * Row) :=
  df !! (draw `mod` length df).

Inductive feedback : Type :=
| Shown
| Warning (text : str).

(** Lines 143-149. *)
Definition surprise_me (recipes_df : DataFrame) (draw : nat)
    (session_state : SessionState) : option (SessionState * feedback) :=
  if negb (empty recipes_df) then
    random_recipe ← sample1 recipes_df draw;
    Some ({| recommended_recipes := Some [random_recipe];
             display_count := Some 1 |}, Shown)
  else
    Some (session_state, Warning (py "No recipes to surprise you with!")).

(** ** The scenario of the specification *)
Module Scenario.
Definition mk (nm cu : string) (prep cook : Z) (ings : list string) : Row :=
  with_ingredients_list
    {| name := py nm; cuisine := py cu; meal_type := py "Dinner";
       difficulty := py "Easy"; prep_time_minutes := prep;
       cook_time_minutes := cook; ingredients := py <$> ings;
       image_url := None; instructions := [] |}.

Definition A : Row := mk "A" "Italian" 10 20 ["egg"; "flour"].
Definition B : Row := mk "B" "Mexican" 15 25 ["chicken"; "garlic"].
Definition C : Row := mk "C" "Italian" 30 5 ["eggplant"; "oil"].
Definition collection : list Row := [A; B; C].

(** Recipes for the query "chicken, garlic": both terms in one recipe,
    only one of them, and both in different ingredients. *)
Definition D : Row := mk "D" "Asian" 20 20 ["Chicken breast"; "rice"].
Definition E : Row := mk "E" "Italian" 5 10 ["Garlic bread"].
Definition F : Row := mk "F" "French" 25 40 ["chicken thigh"; "garlic clove"].
Definition larder : list Row := [B; D; E; F].

(** A recipe without ingredients. *)
Definition G : Row := mk "G" "Italian" 10 10 [].

(** A recipe whose ingredient ends its first word with a non-word
    character. *)
Definition H : Row := mk "H" "Italian" 5 5 ["1% milk"].
End Scenario.

(** ** [display_recipe] *)

(** [str(n)] for an integer, as an f-string inserts it. *)
Definition format_int (n : Z) : str :=
  py (NilZero.string_of_int (Z.to_int n)).

(** [sep.join(items)] *)
Fixpoint join (sep : str) (items : list str) : str :=
  match items with
  | [] => []
  | item :: items' =>
      match items' with
      | [] => item
      | _ :: _ => item ++ sep ++ join sep items'
      end
  end.

(** What the script puts on the page, one constructor per Streamlit call. *)
#[warnings="-register-all"]
Inductive element : Type :=
| StTitle (text : str)
| StSubheader (text : str)
| StImage (url : str) (width : Z)
| StWrite (text : str)
| StExpander (label : str) (body : list element)
| StMarkdown (text : str)
| StInfo (text : str)
| StWarning (text : str)
| StButton (label : str).

(** Lines 78-91.  [has_image_url] tells whether the frame has an
    [image_url] column at all, which [pd.read_json] creates when at least one
    object of the file has the key; reading the column of a row raises
    [KeyError] otherwise.  In a row, [image_url] is [None] when the object has
    no URL ([pd.notna] is false); an empty URL is falsy. *)
Definition display_recipe (has_image_url : bool) (recipe : Row)
    : option (list element) :=
  image ←
    (if has_image_url then
       Some match image_url recipe with
            | Some url =>
                if decide (PyStr.truthy url) then [StImage url 300] else []
            | None => []
            end
     else None);
  Some ([StSubheader (name recipe)]
        ++ image
        ++ [StWrite (py "**Cuisine:** " ++ cuisine recipe);
            StWrite (py "**Meal Type:** " ++ meal_type recipe);
            StWrite (py "**Difficulty:** " ++ difficulty recipe);
            StWrite (py "**Prep Time:** "
                     ++ format_int (prep_time_minutes recipe)
                     ++ py " minutes");
            StWrite (py "**Cook Time:** "
                     ++ format_int (cook_time_minutes recipe)
                     ++ py " minutes");
            StWrite (py "**Ingredients:** "
                     ++ join (py ", ") (ingredients recipe));
            StExpander (py "View Instructions")
              [StWrite (instructions recipe)];
            StMarkdown (py "---")]).

(** ** The sidebar *)

(** The values the sidebar widgets hand to the script. *)
Record Sidebar : Type := {
  sb_cuisine : str;
  sb_meal_type : str;
  sb_difficulty : str;
  sb_prep_time : Z * Z;
  sb_cook_time : Z * Z;
  sb_search_ingredients_str : str
}.

(** [Series.max()] of an integer column; [None] for an empty column, whose
    maximum is not an integer. *)
Definition series_max (values : list Z) : option Z :=
  match values with
  | [] => None
  | v :: values' => Some (foldl Z.max v values')
  end.

(** The upper end of a time slider (lines 114 and 118). *)
Definition slider_upper (recipes_df : DataFrame) (minutes : Row → Z)
    (fallback : Z) : option Z :=
  if negb (empty recipes_df)
  then series_max ((λ ir : nat * Row, minutes ir.2) <$> recipes_df)
  else Some fallback.

(** [st.sidebar.slider(label, min_value, max_value, value)] before the user
    moves it: it returns [value].  Streamlit refuses a slider whose bounds
    coincide.  One whose [max_value] is below its [min_value] has its bounds
    put in order by Streamlit; that case is not modelled and is refused here
    as well. *)
Definition slider (min_value max_value : Z) (value : Z * Z) : option (Z * Z) :=
  if decide (min_value < max_value)%Z then Some value else None.

(** Lines 104-127 before the user touches a widget: each select box shows
    its first option, each slider spans from 0 to its upper end, the text
    input is empty. *)
Definition initial_sidebar (recipes_df : DataFrame) : option Sidebar :=
  cuisines ← Some (get_unique_values recipes_df col_cuisine);
  meal_types ← Some (get_unique_values recipes_df col_meal_type);
  difficulties ← Some (get_unique_values recipes_df col_difficulty);
  selected_cuisine ← head cuisines;
  selected_meal_type ← head meal_types;
  selected_difficulty ← head difficulties;
  prep_upper ← slider_upper recipes_df (λ r, prep_time_minutes r) 60;
  prep_time ← slider 0 prep_upper (0%Z, prep_upper);
  cook_upper ← slider_upper recipes_df (λ r, cook_time_minutes r) 90;
  cook_time ← slider 0 cook_upper (0%Z, cook_upper);
  Some {| sb_cuisine := selected_cuisine;
          sb_meal_type := selected_meal_type;
          sb_difficulty := selected_difficulty;
          sb_prep_time := prep_time;
          sb_cook_time := cook_time;
          sb_search_ingredients_str := [] |}.

(** ** The main area *)

(** The button pressed in the script run at hand; Streamlit reports at most
    one.  [ClickSurprise] carries the random draw of that run. *)
Inductive click : Type :=
| NoClick
| ClickRecommend
| ClickSurprise (draw : nat)
| ClickShowMore.

#[global] Instance click_eq_dec : EqDecision click.
Proof. solve_decision. Defined.

(** Lines 135-141. *)
Definition on_recommend (recipes_df : DataFrame) (sidebar : Sidebar)
    : option SessionState :=
  recommended ← recommend_recipes recipes_df
    (sb_cuisine sidebar) (sb_meal_type sidebar) (sb_difficulty sidebar)
    (sb_prep_time sidebar).1 (sb_prep_time sidebar).2
    (sb_cook_time sidebar).1 (sb_cook_time sidebar).2
    (sb_search_ingredients_str sidebar);
  Some {| recommended_recipes := Some recommended; display_count := Some 5 |}.

(** Lines 134-149: the two buttons and their handlers. *)
Definition col1 (recipes_df : DataFrame) (sidebar : Sidebar) (pressed : click)
    (session_state : SessionState) : option (SessionState * list element) :=
  let buttons := [StButton (py "Recommend Recipes"); StButton (py "Surprise Me!")] in
  match pressed with
  | ClickRecommend =>
      session_state' ← on_recommend recipes_df sidebar;
      Some (session_state', buttons)
  | ClickSurprise draw =>
      '(session_state', said) ← surprise_me recipes_df draw session_state;
      Some (session_state',
            buttons ++ match said with
                       | Warning text => [StWarning text]
                       | Shown => []
                       end)
  | NoClick | ClickShowMore => Some (session_state, buttons)
  end.

(** Lines 151-165.  The third component tells whether
    [st.experimental_rerun()] was called.  Reading [display_count] from a
    session that lacks it is a [KeyError]. *)
Definition col2 (has_image_url : bool) (pressed : click)
    (session_state : SessionState)
    : option (SessionState * list element * bool) :=
  match recommended_recipes session_state with
  | Some recommended =>
      if negb (empty recommended) then
        count ← display_count session_state;
        let found :=
          StWrite (py "Found " ++ format_int (Z.of_nat (length recommended))
                   ++ py " matching recipes.") in
        let recipes_to_display := take count recommended in
        cards ← mapM (λ ir : nat * Row, display_recipe has_image_url ir.2)
                  recipes_to_display;
        let shown := found :: concat cards in
        if decide (count < length recommended) then
          let shown := shown ++ [StButton (py "Show More Recipes")] in
          if decide (pressed = ClickShowMore) then
            Some ({| recommended_recipes := recommended_recipes session_state;
                     display_count := Some (count + 5) |}, shown, true)
          else Some (session_state, shown, false)
        else Some (session_state, shown, false)
      else
        Some (session_state,
              [StInfo (py "No recipes found matching your criteria. Try adjusting your filters!")],
              false)
  | None => Some (session_state, [], false)
  end.

(** One pass over lines 129-165. *)
Definition main_pass (recipes_df : DataFrame) (has_image_url : bool)
    (sidebar : Sidebar) (pressed : click) (session_state : SessionState)
    : option (SessionState * list element * bool) :=
  '(session_state, first) ← col1 recipes_df sidebar pressed session_state;
  '(session_state, second, rerun) ← col2 has_image_url pressed session_state;
  Some (session_state,
        StMarkdown (py "### Find Your Next Delicious Meal!") :: first ++ second,
        rerun).

(** The main area after one user action: a pass, and when that pass asks
    for a rerun, the pass that replaces it, in which no button is
    pressed. *)
Definition main_area (recipes_df : DataFrame) (has_image_url : bool)
    (sidebar : Sidebar) (pressed : click) (session_state : SessionState)
    : option (SessionState * list element) :=
  '(session_state, page, rerun) ←
    main_pass recipes_df has_image_url sidebar pressed session_state;
  if rerun : bool then
    '(session_state, page, _) ←
      main_pass recipes_df has_image_url sidebar NoClick session_state;
    Some (session_state, page)
  else Some (session_state, page).

(** ** Vocabulary of the properties *)

(** The pattern of line 72 for the term [t]. *)
Definition word_atoms (t : str) : list Re.atom :=
  Re.WordBoundary :: (Re.Literal <$> t) ++ [Re.WordBoundary].

(** The character before the position reached after reading [s]. *)
Definition last_or (prev : option ascii) (s : str) : option ascii :=
  match last s with Some d => Some d | None => prev end.

(** The term occurs in the ingredient with no word character just before
    or just after the occurrence. *)
Definition occurs_as_word (t g : str) : Prop :=
  ∃ pre post, g = pre ++ t ++ post ∧
    Re.opt_word (last pre) = false ∧ Re.opt_word (head post) = false.

(** The index labels of a frame are pairwise distinct. *)
Definition unique_index (df : DataFrame) : Prop := NoDup df.*1.

(** The search term matches the ingredient (line 72's [re.search]). *)
Definition word_matches (t g : str) : Prop :=
  Re.search (py "\b" ++ Re.escape t ++ py "\b") g true = Some true.

#[global] Instance word_matches_dec t g : Decision (word_matches t g).
Proof. unfold word_matches. apply _. Defined.

(** Every term matches at least one ingredient of the row. *)
Definition has_terms (terms : list str) (r : Row) : Prop :=
  Forall (λ t, Exists (word_matches t) (ingredients_list r)) terms.

#[global] Instance has_terms_dec terms r : Decision (has_terms terms r).
Proof. unfold has_terms. apply _. Defined.

(** The categorical and numeric conditions. *)
Definition passes (selected_cuisine selected_meal_type selected_difficulty : str)
    (min_prep_time max_prep_time min_cook_time max_cook_time : Z)
    (r : Row) : Prop :=
  (selected_cuisine ≠ py "Any" → cuisine r = selected_cuisine) ∧
  (selected_meal_type ≠ py "Any" → meal_type r = selected_meal_type) ∧
  (selected_difficulty ≠ py "Any" → difficulty r = selected_difficulty) ∧
  (min_prep_time <= prep_time_minutes r <= max_prep_time)%Z ∧
  (min_cook_time <= cook_time_minutes r <= max_cook_time)%Z.

#[global] Instance passes_dec sc sm sd a b c d r :
  Decision (passes sc sm sd a b c d r).
Proof. unfold passes. apply _. Defined.

(** The recipe names on a page, in page order: [display_recipe] opens each
    recipe with a sub-header. *)
Definition subheaders (page : list element) : list str :=
  omap (λ e, match e with StSubheader text => Some text | _ => None end) page.

(** The page offers the "Show More Recipes" button. *)
Definition offers_more (page : list element) : Prop :=
  StButton (py "Show More Recipes") ∈ page.

(** The session at the start of a browser session. *)
Definition new_session : SessionState :=
  {| recommended_recipes := None; display_count := None |}.

(** The session and the page after a sequence of user actions, each a
    state of the sidebar and a button press. *)
Definition press_all
    (step : Sidebar → click → SessionState → option (SessionState * list element))
    (actions : list (Sidebar * click)) (session_state : SessionState)
    : option (SessionState * list element) :=
  foldl (λ acc action, '(st, _) ← acc; step action.1 action.2 st)
    (Some (session_state, [])) actions.

(** A session that has recommendations also has a display count. *)
Definition counted (session_state : SessionState) : Prop :=
  match recommended_recipes session_state with
  | Some _ => is_Some (display_count session_state)
  | None => True
  end.

(** The sidebar used with the scenario: no restriction at all. *)
Definition scenario_sidebar : Sidebar :=
  {| sb_cuisine := py "Any"; sb_meal_type := py "Any";
     sb_difficulty := py "Any"; sb_prep_time := (0, 60)%Z;
     sb_cook_time := (0, 60)%Z; sb_search_ingredients_str := [] |}.

(** * Properties *)

(** ** Characters *)

Ltac each_char c := destruct c as [[] [] [] [] [] [] [] []].

Lemma char_lower_idemp c : PyStr.char_lower (PyStr.char_lower c) = PyStr.char_lower c.
Proof. each_char c; reflexivity. Qed.

Lemma lower_idemp s : PyStr.lower (PyStr.lower s) = PyStr.lower s.
Proof.
  unfold PyStr.lower. rewrite <- list_fmap_compose.
  apply list_fmap_ext. intros _ c _. apply char_lower_idemp.
Qed.

Lemma lower_app s1 s2 : PyStr.lower (s1 ++ s2) = PyStr.lower s1 ++ PyStr.lower s2.
Proof. apply fmap_app. Qed.

(** ** Escaped patterns parse to literals *)

Lemma parse_special c p :
  Re.is_special c = true →
  Re.parse ("\"%char :: c :: p) = cons (Re.Literal c) <$> Re.parse p.
Proof.
  each_char c; intros Hs; try discriminate Hs; reflexivity.
Qed.

Lemma parse_plain c p :
  Re.is_special c = false →
  Re.parse (c :: p) = cons (Re.Literal c) <$> Re.parse p.
Proof.
  each_char c; intros Hs; try discriminate Hs; reflexivity.
Qed.

Lemma parse_escape t p :
  Re.parse (Re.escape t ++ p) = app (Re.Literal <$> t) <$> Re.parse p.
Proof.
  induction t as [|c t IH]; simpl.
  - by destruct (Re.parse p).
  - destruct (Re.is_special c) eqn:Hs.
    + change (("\"%char :: c :: Re.escape t) ++ p)
        with ("\"%char :: c :: (Re.escape t ++ p)).
      rewrite parse_special, IH by done. by destruct (Re.parse p).
    + change ((c :: Re.escape t) ++ p) with (c :: (Re.escape t ++ p)).
      rewrite parse_plain, IH by done. by destruct (Re.parse p).
Qed.

Lemma parse_word_pattern t :
  Re.parse (py "\b" ++ Re.escape t ++ py "\b") = Some (word_atoms t).
Proof.
  change (py "\b" ++ Re.escape t ++ py "\b")
    with ("\"%char :: "b"%char :: (Re.escape t ++ py "\b")).
  change (Re.parse ("\"%char :: "b"%char :: (Re.escape t ++ py "\b")))
    with (cons Re.WordBoundary <$> Re.parse (Re.escape t ++ py "\b")).
  rewrite parse_escape. reflexivity.
Qed.

(** ** What a search for the word pattern finds *)

Lemma last_or_cons prev d s : last_or prev (d :: s) = last_or (Some d) s.
Proof.
  unfold last_or. destruct s as [|e s]; [done|].
  rewrite !last_cons_cons. destruct (last (e :: s)) eqn:E; [done|].
  by apply last_None in E.
Qed.

Lemma last_or_None s : last_or None s = last s.
Proof. unfold last_or. by destruct (last s). Qed.

Lemma last_or_ne prev s : s ≠ [] → last_or prev s = last s.
Proof.
  intros Hs. unfold last_or. destruct (last s) eqn:E; [done|].
  by apply last_None in E.
Qed.

Section matching.
Variable ignorecase : bool.

Let lit (c d : ascii) : Prop := Re.literal_matches ignorecase c d = true.

Lemma match_literals t atoms prev s :
  Re.match_here ignorecase ((Re.Literal <$> t) ++ atoms) prev s = true ↔
  ∃ mid post, s = mid ++ post ∧ Forall2 lit t mid ∧
    Re.match_here ignorecase atoms (last_or prev mid) post = true.
Proof.
  revert prev s. induction t as [|c t IH]; intros prev s.
  - split.
    + intros H. exists [], s. by repeat split; [constructor|].
    + intros (mid & post & -> & Hm & H). by inversion Hm; subst.
  - simpl. destruct s as [|d s].
    + split; [done|]. intros (mid & post & Hs & Hm & _).
      inversion Hm; subst. discriminate Hs.
    + rewrite andb_true_iff, IH. split.
      * intros (Hcd & mid & post & -> & Hm & H).
        exists (d :: mid), post. rewrite last_or_cons.
        by repeat split; [constructor|].
      * intros (mid & post & Hs & Hm & H).
        inversion Hm as [|c' d' t' mid' Hcd Hm']; subst.
        simpl in Hs. injection Hs as -> ->.
        rewrite last_or_cons in H. split; [done|]. by exists mid', post.
Qed.

Lemma search_from_iff atoms prev s :
  Re.search_from ignorecase atoms prev s = true ↔
  ∃ pre rest, s = pre ++ rest ∧
    Re.match_here ignorecase atoms (last_or prev pre) rest = true.
Proof.
  revert prev. induction s as [|d s IH]; intros prev; simpl.
  - rewrite orb_false_r. split.
    + intros H. by exists [], [].
    + intros (pre & rest & Hs & H). symmetry in Hs.
      apply app_eq_nil in Hs as [-> ->]. done.
  - rewrite orb_true_iff, IH. split.
    + intros [H|(pre & rest & -> & H)].
      * by exists [], (d :: s).
      * exists (d :: pre), rest. by rewrite last_or_cons.
    + intros (pre & rest & Hs & H). destruct pre as [|e pre].
      * left. simpl in Hs. by subst rest.
      * right. simpl in Hs. injection Hs as -> ->.
        rewrite last_or_cons in H. by exists pre, rest.
Qed.

(** A search for [\b t \b] succeeds exactly when the subject splits into
    [pre ++ mid ++ post] with [mid] matching [t] literal by literal and a
    word boundary at each end of [mid]. *)
Lemma search_word_atoms t g :
  Re.search_from ignorecase (word_atoms t) None g = true ↔
  ∃ pre mid post, g = pre ++ mid ++ post ∧ Forall2 lit t mid ∧
    Re.at_boundary (last pre) (head (mid ++ post)) = true ∧
    Re.at_boundary (last_or (last pre) mid) (head post) = true.
Proof.
  rewrite search_from_iff. unfold word_atoms. split.
  - intros (pre & rest & -> & H). rewrite last_or_None in H.
    simpl in H. apply andb_true_iff in H as [Hb H].
    apply match_literals in H as (mid & post & -> & Hm & H).
    simpl in H. rewrite andb_true_r in H.
    by exists pre, mid, post.
  - intros (pre & mid & post & -> & Hm & Hb1 & Hb2).
    exists pre, (mid ++ post). split; [done|].
    rewrite last_or_None. simpl. rewrite Hb1. simpl.
    apply match_literals. exists mid, post. repeat split; [done|].
    simpl. by rewrite Hb2.
Qed.
End matching.

Lemma ignorecase_lower t mid :
  Forall2 (λ c d, Re.literal_matches true c d = true) t mid →
  PyStr.lower mid = PyStr.lower t.
Proof.
  induction 1 as [|c d t mid Hcd _ IH]; [done|].
  unfold PyStr.lower in *. rewrite !fmap_cons, IH. f_equal.
  unfold Re.literal_matches in Hcd. by apply bool_decide_eq_true in Hcd.
Qed.

Lemma lower_ignorecase t :
  Forall2 (λ c d, Re.literal_matches true c d = true) t t.
Proof.
  induction t; constructor; [|done].
  unfold Re.literal_matches. by apply bool_decide_eq_true.
Qed.

Lemma lower_part pre mid post :
  PyStr.lower (pre ++ mid ++ post) = pre ++ mid ++ post → PyStr.lower mid = mid.
Proof.
  rewrite !lower_app. intros H.
  apply app_inj_1 in H as [_ H]; [|apply length_fmap].
  apply app_inj_1 in H as [H _]; [done|apply length_fmap].
Qed.

(** For lower-cased strings and a term that begins and ends with a word
    character, the search finds the term exactly when it occurs as a word. *)
Lemma search_word_normalized t g :
  PyStr.lower t = t → PyStr.lower g = g →
  Re.opt_word (head t) = true → Re.opt_word (last t) = true →
  Re.search_from true (word_atoms t) None g = true ↔ occurs_as_word t g.
Proof.
  intros Ht Hg Hh Hl.
  assert (t ≠ []) as Hne by (intros ->; discriminate Hh).
  rewrite search_word_atoms. split.
  - intros (pre & mid & post & -> & Hm & Hb1 & Hb2).
    apply ignorecase_lower in Hm. rewrite Ht in Hm.
    apply lower_part in Hg. rewrite Hg in Hm. subst mid.
    exists pre, post. split; [done|].
    rewrite last_or_ne in Hb2 by done. unfold Re.at_boundary in *.
    rewrite Hl in Hb2. destruct t as [|c t]; [done|]. simpl in Hb1, Hh.
    rewrite Hh in Hb1.
    destruct (Re.opt_word (last pre)), (Re.opt_word (head post)); done.
  - intros (pre & post & -> & Hb1 & Hb2).
    exists pre, t, post. split; [done|]. split; [apply lower_ignorecase|].
    rewrite last_or_ne by done. unfold Re.at_boundary.
    rewrite Hl, Hb1, Hb2. destruct t as [|c t]; [done|]. simpl in *.
    by rewrite Hh.
Qed.

(** ** Frames *)

Lemma RangeIndex_labels rows : (RangeIndex rows).*1 = seq 0 (length rows).
Proof. unfold RangeIndex. apply fst_zip. by rewrite length_seq. Qed.

Lemma RangeIndex_rows rows : (RangeIndex rows).*2 = rows.
Proof. unfold RangeIndex. apply snd_zip. by rewrite length_seq. Qed.

Lemma RangeIndex_unique rows : unique_index (RangeIndex rows).
Proof. unfold unique_index. rewrite RangeIndex_labels. apply NoDup_seq. Qed.

Lemma unique_index_sublist (sub df : DataFrame) :
  sub `sublist_of` df → unique_index df → unique_index sub.
Proof.
  unfold unique_index. intros Hsub Hnd.
  eapply sublist_NoDup; [exact Hnd|]. by apply (fmap_sublist fst).
Qed.

Lemma filter_none {A} (P : A → Prop) `{!∀ x, Decision (P x)} (l : list A) :
  Forall (λ x, ¬ P x) l → filter P l = [].
Proof.
  induction 1 as [|x l Hx _ IH]; [done|].
  by rewrite filter_cons_False.
Qed.

Lemma filter_all {A} (P : A → Prop) `{!∀ x, Decision (P x)} (l : list A) :
  Forall P l → filter P l = l.
Proof.
  induction 1 as [|x l Hx _ IH]; [done|].
  by rewrite filter_cons_True, IH.
Qed.

(** With distinct labels, selecting by the label of a row of the frame
    gives that row alone. *)
Lemma filter_label (df : DataFrame) ir :
  unique_index df → ir ∈ df →
  filter (λ x : nat * Row, x.1 = ir.1) df = [ir].
Proof.
  unfold unique_index. induction df as [|x df IH]; intros Hnd Hin.
  - by apply elem_of_nil in Hin.
  - rewrite fmap_cons in Hnd. apply NoDup_cons in Hnd as [Hx Hnd].
    apply elem_of_cons in Hin as [<-|Hin].
    + rewrite filter_cons_True by done. f_equal.
      apply filter_none, Forall_forall. intros y Hy Hlab.
      apply Hx. rewrite <- Hlab. by apply list_elem_of_fmap_2.
    + rewrite filter_cons_False; [by apply IH|].
      intros Hlab. apply Hx. rewrite Hlab. by apply list_elem_of_fmap_2.
Qed.

(** Looking up the labels of a sub-sequence of a frame with distinct labels
    gives that sub-sequence back. *)
Lemma loc_sublist (df sub : DataFrame) :
  unique_index df → sub `sublist_of` df → loc df sub.*1 = Some sub.
Proof.
  intros Hnd. induction sub as [|ir sub IH]; intros Hsub; [done|].
  rewrite fmap_cons. simpl.
  rewrite filter_label; [|done|].
  - rewrite IH; [done|]. etrans; [|exact Hsub]. by apply sublist_cons.
  - eapply elem_of_sublist; [|exact Hsub]. apply list_elem_of_here.
Qed.

(** ** The ingredient condition *)

Lemma search_word_pattern t g :
  Re.search (py "\b" ++ Re.escape t ++ py "\b") g true
  = Some (Re.search_from true (word_atoms t) None g).
Proof. unfold Re.search. rewrite parse_word_pattern. reflexivity. Qed.

Lemma any_of_total {A} (f : A → option bool) (xs : list A) :
  (∀ x, is_Some (f x)) →
  any_of f xs = Some (bool_decide (Exists (λ x, f x = Some true) xs)).
Proof.
  intros Hf. induction xs as [|x xs IH]; simpl.
  - done.
  - destruct (Hf x) as [[] Hx]; rewrite Hx; simpl.
    + f_equal. symmetry. apply bool_decide_eq_true. by constructor.
    + rewrite IH. f_equal. apply bool_decide_ext. rewrite Exists_cons.
      split; [tauto|]. intros [H|H]; [congruence|done].
Qed.

Lemma all_of_total {A} (f : A → option bool) (xs : list A) :
  (∀ x, is_Some (f x)) →
  all_of f xs = Some (bool_decide (Forall (λ x, f x = Some true) xs)).
Proof.
  intros Hf. induction xs as [|x xs IH]; simpl.
  - done.
  - destruct (Hf x) as [[] Hx]; rewrite Hx; simpl.
    + rewrite IH. f_equal. apply bool_decide_ext. rewrite Forall_cons. tauto.
    + f_equal. symmetry. apply bool_decide_eq_false. rewrite Forall_cons.
      intros [H _]. congruence.
Qed.

(** The condition never raises, and it decides [has_terms]. *)
Lemma has_all_ingredients_total terms (r : Row) :
  has_all_ingredients terms (ingredients_list r)
  = Some (bool_decide (has_terms terms r)).
Proof.
  unfold has_all_ingredients. rewrite all_of_total.
  - f_equal. apply bool_decide_ext. unfold has_terms.
    apply Forall_iff. intros t. rewrite any_of_total.
    + split.
      * intros [= H]. by apply bool_decide_eq_true in H.
      * intros H. f_equal. by apply bool_decide_eq_true.
    + intros g. rewrite search_word_pattern. eauto.
  - intros t. rewrite any_of_total; [eauto|].
    intros g. rewrite search_word_pattern. eauto.
Qed.

Lemma matched_indices_total terms (rows : DataFrame) :
  matched_indices terms rows
  = Some (filter (λ ir : nat * Row, has_terms terms ir.2) rows).*1.
Proof.
  induction rows as [|[index row] rows IH]; [done|].
  simpl. rewrite has_all_ingredients_total, IH. simpl. f_equal.
  destruct (decide (has_terms terms row)) as [H|H].
  - by rewrite bool_decide_eq_true_2, filter_cons_True.
  - by rewrite bool_decide_eq_false_2, filter_cons_False.
Qed.

(** ** [recommend_recipes] as one filter *)

Lemma categorical_pass (choice : str) (field : Row → str) (df : DataFrame) :
  (if decide (choice ≠ py "Any")
   then filter (λ ir : nat * Row, field ir.2 = choice) df else df)
  = filter (λ ir : nat * Row, choice ≠ py "Any" → field ir.2 = choice) df.
Proof.
  destruct (decide (choice ≠ py "Any")) as [Hc|Hc].
  - apply list_filter_iff. intros ir. tauto.
  - symmetry. apply filter_all, Forall_forall. intros ir _ H. done.
Qed.

Lemma search_terms_nil : search_terms [] = [].
Proof. reflexivity. Qed.

Section recommend.
Variables (df : DataFrame).
Variables (selected_cuisine selected_meal_type selected_difficulty : str).
Variables (min_prep_time max_prep_time min_cook_time max_cook_time : Z).

Let ok : Row → Prop :=
  passes selected_cuisine selected_meal_type selected_difficulty
    min_prep_time max_prep_time min_cook_time max_cook_time.

(** Lines 49-62 amount to one filter on [passes]. *)
Lemma earlier_passes :
  let filtered_df := df in
  let filtered_df :=
    if decide (selected_cuisine ≠ py "Any")
    then filter (λ ir : nat * Row, cuisine ir.2 = selected_cuisine) filtered_df
    else filtered_df in
  let filtered_df :=
    if decide (selected_meal_type ≠ py "Any")
    then filter (λ ir : nat * Row, meal_type ir.2 = selected_meal_type) filtered_df
    else filtered_df in
  let filtered_df :=
    if decide (selected_difficulty ≠ py "Any")
    then filter (λ ir : nat * Row, difficulty ir.2 = selected_difficulty) filtered_df
    else filtered_df in
  filter (λ ir : nat * Row,
    (prep_time_minutes ir.2 >= min_prep_time)%Z ∧
    (prep_time_minutes ir.2 <= max_prep_time)%Z ∧
    (cook_time_minutes ir.2 >= min_cook_time)%Z ∧
    (cook_time_minutes ir.2 <= max_cook_time)%Z) filtered_df
  = filter (λ ir : nat * Row, ok ir.2) df.
Proof.
  cbv zeta.
  rewrite (categorical_pass selected_cuisine (λ r : Row, cuisine r)).
  rewrite (categorical_pass selected_meal_type (λ r : Row, meal_type r)).
  rewrite (categorical_pass selected_difficulty (λ r : Row, difficulty r)).
  rewrite !list_filter_filter.
  apply list_filter_iff. intros ir. unfold ok, passes.
  rewrite !Z.ge_le_iff. tauto.
Qed.

(** Without an ingredient query the result is the rows that pass the
    categorical and numeric conditions. *)
Lemma recommend_recipes_no_terms search_ingredients_str :
  search_terms search_ingredients_str = [] →
  recommend_recipes df selected_cuisine selected_meal_type selected_difficulty
    min_prep_time max_prep_time min_cook_time max_cook_time
    search_ingredients_str
  = Some (filter (λ ir : nat * Row, ok ir.2) df).
Proof.
  intros Hq. unfold recommend_recipes. cbv zeta.
  pose proof earlier_passes as E. cbv zeta in E. rewrite Hq, E.
  destruct (decide (PyStr.truthy search_ingredients_str)); [|done].
  by destruct (decide (@nil str ≠ [])).
Qed.

(** With an ingredient query that has terms, the ingredient condition is
    applied on top, and nothing else changes. *)
Lemma recommend_recipes_terms search_ingredients_str :
  unique_index df →
  search_terms search_ingredients_str ≠ [] →
  recommend_recipes df selected_cuisine selected_meal_type selected_difficulty
    min_prep_time max_prep_time min_cook_time max_cook_time
    search_ingredients_str
  = Some (filter (λ ir : nat * Row,
            has_terms (search_terms search_ingredients_str) ir.2)
            (filter (λ ir : nat * Row, ok ir.2) df)).
Proof.
  intros Hnd Hq. unfold recommend_recipes. cbv zeta.
  pose proof earlier_passes as E. cbv zeta in E. rewrite E.
  destruct (decide (PyStr.truthy search_ingredients_str)) as [Ht|Ht].
  2:{ exfalso. apply Hq. unfold PyStr.truthy in Ht.
      apply dec_stable in Ht. by rewrite Ht. }
  destruct (decide (search_terms search_ingredients_str ≠ [])); [|done].
  rewrite matched_indices_total. cbn [mbind option_bind].
  apply loc_sublist.
  - eapply unique_index_sublist; [|exact Hnd]. apply sublist_filter.
  - apply sublist_filter.
Qed.
End recommend.

(** ** The order on [str], [unique] and [sorted] *)

#[global] Instance str_le_total : Total str_le.
Proof.
  intros a. unfold str_le. induction a as [|x a IH]; intros b; [by left|].
  destruct b as [|y b]; [by right|]. simpl.
  destruct (N.ltb_spec (PyStr.ord x) (PyStr.ord y)),
    (N.ltb_spec (PyStr.ord y) (PyStr.ord x)); try tauto; try lia.
  apply IH.
Qed.

#[global] Instance str_le_trans : Transitive str_le.
Proof.
  intros a. unfold str_le. induction a as [|x a IH]; intros b c; [done|].
  destruct b as [|y b]; [done|]. destruct c as [|z c]; [done|]. simpl.
  destruct (N.ltb_spec (PyStr.ord x) (PyStr.ord y)),
    (N.ltb_spec (PyStr.ord y) (PyStr.ord x)),
    (N.ltb_spec (PyStr.ord y) (PyStr.ord z)),
    (N.ltb_spec (PyStr.ord z) (PyStr.ord y)),
    (N.ltb_spec (PyStr.ord x) (PyStr.ord z)),
    (N.ltb_spec (PyStr.ord z) (PyStr.ord x));
    try done; try lia.
  apply IH.
Qed.

#[global] Instance str_le_antisym : AntiSymm (=) str_le.
Proof.
  intros a. unfold str_le. induction a as [|x a IH]; intros b.
  - by destruct b.
  - destruct b as [|y b]; [done|]. simpl.
    destruct (N.ltb_spec (PyStr.ord x) (PyStr.ord y)),
      (N.ltb_spec (PyStr.ord y) (PyStr.ord x)); try done; try lia.
    intros Hab Hba. f_equal; [|by apply IH].
    rewrite <- (ascii_N_embedding x), <- (ascii_N_embedding y).
    f_equal. unfold PyStr.ord in *. lia.
Qed.

Lemma elem_of_unique_from seen values v :
  v ∈ unique_from seen values ↔ v ∈ values ∧ v ∉ seen.
Proof.
  revert seen. induction values as [|w values IH]; intros seen; simpl.
  - rewrite !elem_of_nil. tauto.
  - destruct (decide (w ∈ seen)) as [Hw|Hw].
    + rewrite IH, elem_of_cons. split; [tauto|].
      intros [[->|H] Hs]; [done|tauto].
    + rewrite !elem_of_cons, IH, elem_of_cons. split.
      * intros [->|[H Hs]]; [tauto|]. tauto.
      * intros [[->|H] Hs]; [tauto|].
        destruct (decide (v = w)); [tauto|]. tauto.
Qed.

Lemma NoDup_unique_from seen values : NoDup (unique_from seen values).
Proof.
  revert seen. induction values as [|w values IH]; intros seen; simpl.
  - constructor.
  - destruct (decide (w ∈ seen)); [apply IH|].
    apply NoDup_cons. split; [|apply IH].
    rewrite elem_of_unique_from, elem_of_cons. tauto.
Qed.

Lemma elem_of_unique values v : v ∈ unique values ↔ v ∈ values.
Proof.
  unfold unique. rewrite elem_of_unique_from, elem_of_nil. tauto.
Qed.

Lemma sorted_Permutation values : sorted values ≡ₚ values.
Proof. apply merge_sort_Permutation. Qed.

Lemma sorted_StronglySorted values : StronglySorted str_le (sorted values).
Proof. apply StronglySorted_merge_sort; apply _. Qed.

(** ** Tokenisation of the ingredient query *)

Lemma split_pieces (P : ascii → Prop) sep s :
  Forall P s →
  Forall (Forall (λ ch, P ch ∧ ch ≠ sep)) (PyStr.split sep s).
Proof.
  induction 1 as [|c s Hc _ IH]; simpl.
  - repeat constructor.
  - destruct (decide (c = sep)) as [->|Hne]; [by constructor|].
    destruct (PyStr.split sep s) as [|piece pieces].
    + repeat constructor; done.
    + apply Forall_cons in IH as [Hp Hps].
      constructor; [|done]. by constructor.
Qed.

Lemma lstrip_spaces s :
  Forall (λ ch, PyStr.isspace ch = true) s → PyStr.lstrip s = [].
Proof. induction 1 as [|c s Hc _ IH]; simpl; [done|]. by rewrite Hc. Qed.

Lemma strip_spaces s :
  Forall (λ ch, PyStr.isspace ch = true) s → PyStr.strip s = [].
Proof. intros H. unfold PyStr.strip. by rewrite lstrip_spaces. Qed.

(** A query made of commas and white space only has no search term. *)
Lemma search_terms_blank q :
  Forall (λ ch, ch = ","%char ∨ PyStr.isspace ch = true) q →
  search_terms q = [].
Proof.
  intros Hq. unfold search_terms. rewrite filter_none; [done|].
  eapply Forall_impl; [by apply split_pieces|].
  intros piece Hpiece. unfold PyStr.truthy. intros Hne. apply Hne.
  apply strip_spaces. eapply Forall_impl; [exact Hpiece|].
  intros ch [[->|Hsp] Hcomma]; done.
Qed.

(** * The claims *)

Section claims.
Variable collection : list Row.
Variables selected_cuisine selected_meal_type selected_difficulty : str.
Variables min_prep_time max_prep_time min_cook_time max_cook_time : Z.
Variable search_ingredients_str : str.

Let ok : Row → Prop :=
  passes selected_cuisine selected_meal_type selected_difficulty
    min_prep_time max_prep_time min_cook_time max_cook_time.

(** The result as one filter, whatever the query. *)
Lemma recommend_recipes_filter :
  recommend_recipes (RangeIndex collection)
    selected_cuisine selected_meal_type selected_difficulty
    min_prep_time max_prep_time min_cook_time max_cook_time
    search_ingredients_str
  = Some (filter (λ ir : nat * Row,
            has_terms (search_terms search_ingredients_str) ir.2)
            (filter (λ ir : nat * Row, ok ir.2) (RangeIndex collection))).
Proof.
  destruct (decide (search_terms search_ingredients_str = [])) as [Hq|Hq].
  - rewrite recommend_recipes_no_terms by done. rewrite Hq. f_equal.
    symmetry. apply filter_all, Forall_forall. intros ir _. constructor.
  - apply recommend_recipes_terms; [apply RangeIndex_unique|done].
Qed.


(** C3. Stable filter: the result is a sub-sequence of the input frame, so
    it has no row the input lacks, repeats no row, and keeps the survivors
    in their original relative order; the same holds of the recipes read
    off the two frames. *)
Theorem filter_stable :
  ∃ result,
    recommend_recipes (RangeIndex collection)
      selected_cuisine selected_meal_type selected_difficulty
      min_prep_time max_prep_time min_cook_time max_cook_time
      search_ingredients_str = Some result ∧
    result `sublist_of` RangeIndex collection ∧
    result.*2 `sublist_of` collection.
Proof.
  eexists. split; [apply recommend_recipes_filter|].
  assert (∀ P Q `{!∀ x, Decision (P x)} `{!∀ x, Decision (Q x)},
    filter P (filter Q (RangeIndex collection))
      `sublist_of` RangeIndex collection) as Hsub.
  { intros. etrans; apply sublist_filter. }
  split; [apply Hsub|].
  rewrite <- (RangeIndex_rows collection) at 2.
  apply (fmap_sublist snd), Hsub.
Qed.

(** C2. Identity criteria: with cuisine, meal type and difficulty all
    "Any", time ranges that cover the preparation and cooking time of every
    recipe, and an empty ingredient query, the whole collection comes back
    unchanged and in its original order. *)
Theorem filter_identity :
  Forall (λ r : Row,
    (min_prep_time <= prep_time_minutes r <= max_prep_time)%Z ∧
    (min_cook_time <= cook_time_minutes r <= max_cook_time)%Z) collection →
  recommend_recipes (RangeIndex collection) (py "Any") (py "Any") (py "Any")
    min_prep_time max_prep_time min_cook_time max_cook_time []
  = Some (RangeIndex collection) ∧
  (RangeIndex collection).*2 = collection.
Proof.
  intros Hcover. split; [|apply RangeIndex_rows].
  rewrite recommend_recipes_no_terms by done. f_equal.
  apply filter_all.
  rewrite <- (RangeIndex_rows collection), Forall_fmap in Hcover.
  eapply Forall_impl; [exact Hcover|].
  intros ir [Hp Hc]. unfold passes. simpl in *. done.
Qed.


(** C6. Numeric range semantics: without an ingredient query the result is
    exactly the recipes, among those the categorical pass keeps, whose
    preparation and cooking times lie within the bounds, both bounds
    included (a recipe whose time equals a bound is kept); and when a
    minimum exceeds its maximum the filter returns no recipe and does not
    raise. *)
Theorem numeric_range :
  (∃ survivors,
     recommend_recipes (RangeIndex collection)
       selected_cuisine selected_meal_type selected_difficulty
       min_prep_time max_prep_time min_cook_time max_cook_time []
     = Some survivors ∧
     survivors =
       filter (λ ir : nat * Row,
         (min_prep_time <= prep_time_minutes ir.2 <= max_prep_time)%Z ∧
         (min_cook_time <= cook_time_minutes ir.2 <= max_cook_time)%Z)
         (filter (λ ir : nat * Row,
            (selected_cuisine ≠ py "Any" → cuisine ir.2 = selected_cuisine) ∧
            (selected_meal_type ≠ py "Any" →
               meal_type ir.2 = selected_meal_type) ∧
            (selected_difficulty ≠ py "Any" →
               difficulty ir.2 = selected_difficulty))
            (RangeIndex collection)) ∧
     ∀ ir : nat * Row, ir ∈ RangeIndex collection →
       (selected_cuisine ≠ py "Any" → cuisine ir.2 = selected_cuisine) →
       (selected_meal_type ≠ py "Any" → meal_type ir.2 = selected_meal_type) →
       (selected_difficulty ≠ py "Any" →
          difficulty ir.2 = selected_difficulty) →
       (min_prep_time <= max_prep_time)%Z →
       prep_time_minutes ir.2 = min_prep_time ∨
         prep_time_minutes ir.2 = max_prep_time →
       (min_cook_time <= cook_time_minutes ir.2 <= max_cook_time)%Z →
       ir ∈ survivors) ∧
  ((min_prep_time > max_prep_time)%Z ∨ (min_cook_time > max_cook_time)%Z →
   recommend_recipes (RangeIndex collection)
     selected_cuisine selected_meal_type selected_difficulty
     min_prep_time max_prep_time min_cook_time max_cook_time
     search_ingredients_str = Some []).
Proof.
  split.
  - eexists. split; [by apply recommend_recipes_no_terms|]. split.
    + rewrite list_filter_filter. apply list_filter_iff.
      intros ir. unfold passes. tauto.
    + intros ir Hir ? ? ? ? Hprep ?. apply list_elem_of_filter.
      split; [|done]. unfold passes. repeat split; try done; lia.
  - intros Hbad. rewrite recommend_recipes_filter. f_equal.
    rewrite (filter_none (λ ir : nat * Row, ok ir.2)); [done|].
    apply Forall_forall. intros ir _ Hok. unfold ok, passes in Hok. lia.
Qed.

(** C9. Degenerate ingredient query: a non-empty query made only of commas
    and white space yields no search term, the ingredient pass is skipped,
    and the result is the one an empty query gives. *)
Theorem blank_query_is_no_filter :
  search_ingredients_str ≠ [] →
  Forall (λ ch, ch = ","%char ∨ PyStr.isspace ch = true)
    search_ingredients_str →
  search_terms search_ingredients_str = [] ∧
  ∃ result,
    recommend_recipes (RangeIndex collection)
      selected_cuisine selected_meal_type selected_difficulty
      min_prep_time max_prep_time min_cook_time max_cook_time
      search_ingredients_str = Some result ∧
    recommend_recipes (RangeIndex collection)
      selected_cuisine selected_meal_type selected_difficulty
      min_prep_time max_prep_time min_cook_time max_cook_time [] = Some result.
Proof.
  intros _ Hblank. apply search_terms_blank in Hblank.
  split; [done|]. eexists.
  split; by apply recommend_recipes_no_terms.
Qed.

(** C10. A recipe whose normalized ingredient list is empty is excluded
    from the result of every query that has at least one search term. *)
Theorem no_ingredients_excluded (ir : nat * Row) :
  search_terms search_ingredients_str ≠ [] →
  ingredients_list ir.2 = [] →
  ∃ result,
    recommend_recipes (RangeIndex collection)
      selected_cuisine selected_meal_type selected_difficulty
      min_prep_time max_prep_time min_cook_time max_cook_time
      search_ingredients_str = Some result ∧
    ir ∉ result.
Proof.
  intros Hq Hnone. eexists. split; [apply recommend_recipes_filter|].
  rewrite list_elem_of_filter. intros [Hterms _].
  unfold has_terms in Hterms. rewrite Hnone in Hterms.
  destruct (search_terms search_ingredients_str) as [|t ts]; [done|].
  apply Forall_cons in Hterms as [Ht _]. by apply Exists_nil in Ht.
Qed.
End claims.

(** The term "1%" occurs in "1% milk" with no word character on either
    side, and the search does not find it: [\b] after the "%" asks for a
    word character there. *)
Lemma word_boundary_counterexample :
  ¬ (word_matches (PyStr.lower (PyStr.strip (py "1%"))) (normalize (py "1% milk"))
     ↔ occurs_as_word (PyStr.lower (PyStr.strip (py "1%")))
         (normalize (py "1% milk"))).
Proof.
  intros [_ H].
  assert (word_matches (PyStr.lower (PyStr.strip (py "1%")))
            (normalize (py "1% milk"))) as Hm.
  { apply H. exists [], (py " milk"). by vm_compute. }
  vm_compute in Hm. discriminate Hm.
Qed.

(** C4. Word-boundary ingredient matching, at the input where the code
    misses it.  The query "1%" tokenizes to the term "1%"; the ingredient
    "1% milk" is already normalized; the term occurs in it as a substring
    that no alphanumeric or underscore character precedes or follows, so the
    claim has the term match.  The code's condition for the recipe is
    nevertheless false, and the recipe is not returned: the pattern closes
    with [\b], which after the non-word "%" holds only before a word
    character.  The code escapes the term and wraps it in word boundaries
    to find it as a whole word, and checks, by its comment on line 71, that
    the searched ingredients are present. *)
Theorem word_boundary_misses_term :
  search_terms (py "1%") = [py "1%"] ∧
  ingredients_list Scenario.H = [py "1% milk"] ∧
  occurs_as_word (py "1%") (py "1% milk") ∧
  has_all_ingredients (search_terms (py "1%")) (ingredients_list Scenario.H)
  = Some false ∧
  recommend_recipes (RangeIndex [Scenario.H])
    (py "Any") (py "Any") (py "Any") 0 60 0 60 (py "1%") = Some [].
Proof.
  split; [done|]. split; [done|]. split; [|by vm_compute].
  exists [], (py " milk"). by vm_compute.
Qed.

(** Where the code does what the claim says, for text of code points below
    U+0100: a trimmed, lower-cased search term that begins and ends with an
    alphanumeric or underscore character matches a normalized ingredient
    exactly when it occurs in it as a substring with no alphanumeric or
    underscore character immediately before or after; the term is escaped,
    so the pattern is the term's characters as literals between two word
    boundaries; the query "egg" matches a recipe with the ingredient "egg"
    or "egg yolk" and does not match one whose only candidate is
    "eggplant". *)
Lemma word_boundary_matching :
  (∀ s item : str,
     Re.opt_word (head (PyStr.lower (PyStr.strip s))) = true →
     Re.opt_word (last (PyStr.lower (PyStr.strip s))) = true →
     word_matches (PyStr.lower (PyStr.strip s)) (normalize item)
     ↔ occurs_as_word (PyStr.lower (PyStr.strip s)) (normalize item)) ∧
  (∀ t : str,
     Re.parse (py "\b" ++ Re.escape t ++ py "\b")
     = Some (Re.WordBoundary :: (Re.Literal <$> t) ++ [Re.WordBoundary])) ∧
  has_all_ingredients (search_terms (py "egg")) [py "egg"; py "flour"]
    = Some true ∧
  has_all_ingredients (search_terms (py "egg")) [py "egg yolk"] = Some true ∧
  has_all_ingredients (search_terms (py "egg")) [py "eggplant"; py "oil"]
    = Some false.
Proof.
  split; [|split; [apply parse_word_pattern|by vm_compute]].
  intros s item Hh Hl. unfold word_matches.
  rewrite search_word_pattern. rewrite <- search_word_normalized.
  - split; [by intros [= ->]|by intros ->].
  - apply lower_idemp.
  - apply lower_idemp.
  - done.
  - done.
Qed.

Lemma word_boundary_matching_witness :
  word_matches (py "egg") (py "egg yolk")
  ↔ occurs_as_word (py "egg") (py "egg yolk").
Proof.
  apply (proj1 word_boundary_matching (py " Egg ") (py "Egg Yolk "));
    reflexivity.
Defined.

(** C7. [get_unique_values] returns "Any" followed by the values observed in
    the column, sorted and without repetition; on an empty frame it returns
    just "Any"; on cuisines Italian, Mexican, Italian it returns Any,
    Italian, Mexican. *)
Theorem get_unique_values_spec (df : DataFrame) (col : column) :
  (∃ values,
     get_unique_values df col = py "Any" :: values ∧
     StronglySorted str_le values ∧ NoDup values ∧
     ∀ v, v ∈ values ↔ ∃ ir : nat * Row, ir ∈ df ∧ cell col ir.2 = v) ∧
  get_unique_values [] col = [py "Any"] ∧
  ((λ ir : nat * Row, cuisine ir.2) <$> df
     = [py "Italian"; py "Mexican"; py "Italian"] →
   get_unique_values df col_cuisine = [py "Any"; py "Italian"; py "Mexican"]).
Proof.
  split; [|split; [done|]].
  - destruct df as [|ir0 df0] eqn:Hdf.
    + exists []. split; [done|]. split; [constructor|]. split; [constructor|].
      intros v. rewrite elem_of_nil. split; [done|].
      intros (ir & Hir & _). by apply elem_of_nil in Hir.
    + rewrite <- Hdf. eexists. split.
      { unfold get_unique_values, empty.
        rewrite bool_decide_eq_false_2 by (by rewrite Hdf). reflexivity. }
      split; [apply sorted_StronglySorted|]. split.
      * rewrite sorted_Permutation. apply NoDup_unique_from.
      * intros v. rewrite sorted_Permutation, elem_of_unique, list_elem_of_fmap.
        split; intros (ir & H1 & H2); exists ir; done.
  - intros Hcol. unfold get_unique_values, empty.
    destruct df as [|ir0 df0]; [discriminate Hcol|].
    rewrite bool_decide_eq_false_2 by done.
    change ((λ ir : nat * Row, cell col_cuisine ir.2) <$> ir0 :: df0
            = [py "Italian"; py "Mexican"; py "Italian"]) in Hcol.
    rewrite Hcol. by vm_compute.
Qed.

(** C8. The "Surprise Me!" handler: on an empty collection it warns, leaves
    the session as it was and produces no recipe; on a non-empty collection
    it stores exactly one recipe, a member of the collection, and does not
    raise. *)
Theorem surprise_me_spec :
  (∀ draw session_state,
     surprise_me [] draw session_state
     = Some (session_state, Warning (py "No recipes to surprise you with!"))) ∧
  (∀ (row : nat * Row) (df : DataFrame) draw session_state,
     ∃ random_recipe,
       random_recipe ∈ row :: df ∧
       surprise_me (row :: df) draw session_state
       = Some ({| recommended_recipes := Some [random_recipe];
                  display_count := Some 1 |}, Shown)).
Proof.
  split; [done|]. intros row df draw session_state.
  unfold surprise_me, sample1.
  destruct (lookup_lt_is_Some_2 (row :: df) (draw `mod` length (row :: df)))
    as [picked Hpicked].
  { apply Nat.mod_upper_bound. done. }
  exists picked. split; [by eapply list_elem_of_lookup_2|].
  change (empty (row :: df)) with false. cbn [negb].
  by rewrite Hpicked.
Qed.

(** ** The claims on the scenario *)

Lemma filter_identity_witness :
  recommend_recipes (RangeIndex Scenario.collection)
    (py "Any") (py "Any") (py "Any") 0 30 0 25 []
  = Some (RangeIndex Scenario.collection) ∧
  (RangeIndex Scenario.collection).*2 = Scenario.collection.
Proof.
  apply (filter_identity Scenario.collection 0 30 0 25).
  apply (bool_decide_unpack _). by vm_compute.
Defined.


Lemma numeric_range_witness :
  recommend_recipes (RangeIndex Scenario.collection)
    (py "Any") (py "Any") (py "Any") 20 10 0 60 (py "egg") = Some [].
Proof.
  apply (proj2 (numeric_range Scenario.collection
                  (py "Any") (py "Any") (py "Any") 20 10 0 60 (py "egg"))).
  left. by vm_compute.
Defined.

Lemma blank_query_is_no_filter_witness :
  search_terms (py " , ,, ") = [] ∧
  ∃ result,
    recommend_recipes (RangeIndex Scenario.collection)
      (py "Italian") (py "Any") (py "Any") 0 60 0 60 (py " , ,, ")
    = Some result ∧
    recommend_recipes (RangeIndex Scenario.collection)
      (py "Italian") (py "Any") (py "Any") 0 60 0 60 [] = Some result.
Proof.
  apply (blank_query_is_no_filter Scenario.collection
           (py "Italian") (py "Any") (py "Any") 0 60 0 60 (py " , ,, ")).
  - by vm_compute.
  - apply (bool_decide_unpack _). by vm_compute.
Defined.

Lemma no_ingredients_excluded_witness :
  ∃ result,
    recommend_recipes (RangeIndex [Scenario.A; Scenario.G])
      (py "Italian") (py "Any") (py "Any") 0 60 0 60 (py "egg") = Some result ∧
    (1, Scenario.G) ∉ result.
Proof.
  apply (no_ingredients_excluded [Scenario.A; Scenario.G]
           (py "Italian") (py "Any") (py "Any") 0 60 0 60 (py "egg")
           (1, Scenario.G)).
  - by vm_compute.
  - reflexivity.
Defined.

(** The scenario of the specification: Italian, both ranges 0 to 60, query
    "egg" returns A alone. *)
Example scenario_egg :
  recommend_recipes (RangeIndex Scenario.collection)
    (py "Italian") (py "Any") (py "Any") 0 60 0 60 (py "egg")
  = Some [(0, Scenario.A)].
Proof. by vm_compute. Qed.

(** "chicken, garlic" keeps the recipes with both terms, B and F, and drops
    D and E, which have only one. *)
Example scenario_chicken_garlic :
  recommend_recipes (RangeIndex Scenario.larder)
    (py "Any") (py "Any") (py "Any") 0 60 0 60 (py "chicken, garlic")
  = Some [(0, Scenario.B); (3, Scenario.F)].
Proof. by vm_compute. Qed.

(** A preparation time equal to a bound is inside the range. *)
Example scenario_bounds :
  recommend_recipes (RangeIndex Scenario.collection)
    (py "Any") (py "Any") (py "Any") 10 15 0 60 []
  = Some [(0, Scenario.A); (1, Scenario.B)].
Proof. by vm_compute. Qed.

(** An unescaped dot would match any character; the escaped term does not. *)
Example escape_matters :
  Re.search (py "\b1.5\b") (py "125") true = Some true ∧
  Re.search (py "\b" ++ Re.escape (py "1.5") ++ py "\b") (py "125") true
  = Some false.
Proof. by vm_compute. Qed.

Example scenario_unique_cuisines :
  get_unique_values (RangeIndex Scenario.collection) col_cuisine
  = [py "Any"; py "Italian"; py "Mexican"].
Proof. by vm_compute. Qed.

Example load_recipes_missing_file : load_recipes None = [].
Proof. reflexivity. Qed.

(** * Further properties of the code *)

(** ** [recommend_recipes] on any frame *)

(** Every label asked for is in the frame: the lookup does not raise. *)
Lemma loc_total (df : DataFrame) (labels : list nat) :
  labels ⊆ df.*1 → is_Some (loc df labels).
Proof.
  induction labels as [|label labels IH]; intros Hsub; [by eexists|].
  simpl. destruct IH as [rest Hrest].
  { intros x Hx. apply Hsub. by right. }
  rewrite Hrest.
  destruct (filter (λ ir : nat * Row, ir.1 = label) df) as [|hit hits] eqn:Hf;
    [|by eexists].
  exfalso. assert (label ∈ df.*1) as Hin by (apply Hsub; by left).
  apply list_elem_of_fmap in Hin as (ir & -> & Hir).
  exact (filter_nil_not_elem_of _ _ ir Hf eq_refl Hir).
Qed.

(** The lookup returns rows of the frame only. *)
Lemma loc_subseteq (df : DataFrame) (labels : list nat) (result : DataFrame) :
  loc df labels = Some result → result ⊆ df.
Proof.
  revert result. induction labels as [|label labels IH]; intros result Hr.
  - injection Hr as <-. apply list_subseteq_nil.
  - simpl in Hr.
    destruct (filter (λ ir : nat * Row, ir.1 = label) df) as [|hit hits] eqn:Hf;
      [done|].
    destruct (loc df labels) as [rest|]; [|done].
    injection Hr as <-. intros x Hx.
    change (x ∈ (hit :: hits) ++ rest) in Hx.
    apply elem_of_app in Hx as [Hx|Hx]; [|by apply (IH rest)].
    rewrite <- Hf in Hx. by apply list_elem_of_filter in Hx as [_ Hx].
Qed.

Section any_frame.
Variable df : DataFrame.
Variables selected_cuisine selected_meal_type selected_difficulty : str.
Variables min_prep_time max_prep_time min_cook_time max_cook_time : Z.

Let ok : Row → Prop :=
  passes selected_cuisine selected_meal_type selected_difficulty
    min_prep_time max_prep_time min_cook_time max_cook_time.

(** The query enters the result through its search terms only. *)
Lemma recommend_recipes_by_terms search_ingredients_str :
  recommend_recipes df selected_cuisine selected_meal_type selected_difficulty
    min_prep_time max_prep_time min_cook_time max_cook_time
    search_ingredients_str
  = if decide (search_terms search_ingredients_str = [])
    then Some (filter (λ ir : nat * Row, ok ir.2) df)
    else loc (filter (λ ir : nat * Row, ok ir.2) df)
           (filter (λ ir : nat * Row,
              has_terms (search_terms search_ingredients_str) ir.2)
              (filter (λ ir : nat * Row, ok ir.2) df)).*1.
Proof.
  destruct (decide (search_terms search_ingredients_str = [])) as [Hq|Hq].
  - by apply recommend_recipes_no_terms.
  - unfold recommend_recipes. cbv zeta.
    pose proof (earlier_passes df selected_cuisine selected_meal_type
      selected_difficulty min_prep_time max_prep_time min_cook_time
      max_cook_time) as E.
    cbv zeta in E. rewrite E.
    destruct (decide (PyStr.truthy search_ingredients_str)) as [Ht|Ht].
    2:{ exfalso. apply Hq. unfold PyStr.truthy in Ht.
        apply dec_stable in Ht. by rewrite Ht. }
    destruct (decide (search_terms search_ingredients_str ≠ [])); [|done].
    by rewrite matched_indices_total.
Qed.

(** With distinct labels the result is one filter. *)
Lemma recommend_recipes_unique search_ingredients_str :
  unique_index df →
  recommend_recipes df selected_cuisine selected_meal_type selected_difficulty
    min_prep_time max_prep_time min_cook_time max_cook_time
    search_ingredients_str
  = Some (filter (λ ir : nat * Row,
            has_terms (search_terms search_ingredients_str) ir.2 ∧ ok ir.2) df).
Proof.
  intros Hnd. rewrite <- list_filter_filter.
  destruct (decide (search_terms search_ingredients_str = [])) as [Hq|Hq].
  - rewrite recommend_recipes_no_terms by done. rewrite Hq. f_equal.
    symmetry. apply filter_all, Forall_forall. intros ir _. constructor.
  - by apply recommend_recipes_terms.
Qed.

Lemma recommend_recipes_total search_ingredients_str :
  is_Some
    (recommend_recipes df selected_cuisine selected_meal_type
       selected_difficulty min_prep_time max_prep_time min_cook_time
       max_cook_time search_ingredients_str).
Proof.
  rewrite recommend_recipes_by_terms.
  destruct (decide _); [by eexists|].
  apply loc_total. intros label Hlabel.
  apply list_elem_of_fmap in Hlabel as (ir & -> & Hir).
  apply list_elem_of_fmap_2. by apply list_elem_of_filter in Hir as [_ Hir].
Qed.

(** X1. [recommend_recipes] returns a frame for every frame, whatever its
    index labels, and for every criteria and query string: neither the
    pattern built from a search term nor the lookup of the matched labels
    raises; and what it returns has no row that the frame lacks. *)
Theorem recommend_recipes_never_raises search_ingredients_str :
  ∃ result,
    recommend_recipes df selected_cuisine selected_meal_type
      selected_difficulty min_prep_time max_prep_time min_cook_time
      max_cook_time search_ingredients_str = Some result ∧
    result ⊆ df.
Proof.
  destruct (recommend_recipes_total search_ingredients_str) as [result Hr].
  exists result. split; [done|].
  rewrite recommend_recipes_by_terms in Hr.
  destruct (decide _).
  - injection Hr as <-. apply list_subseteq_filter.
  - intros x Hx. apply (loc_subseteq _ _ _ Hr) in Hx.
    by apply list_elem_of_filter in Hx as [_ Hx].
Qed.

(** X2. The order of the search terms and their repetition do not matter:
    two queries with the same set of terms give the same result on every
    frame. *)
Theorem same_terms_same_result q1 q2 :
  (∀ t, t ∈ search_terms q1 ↔ t ∈ search_terms q2) →
  recommend_recipes df selected_cuisine selected_meal_type selected_difficulty
    min_prep_time max_prep_time min_cook_time max_cook_time q1
  = recommend_recipes df selected_cuisine selected_meal_type
      selected_difficulty min_prep_time max_prep_time min_cook_time
      max_cook_time q2.
Proof.
  intros Hsame. rewrite !recommend_recipes_by_terms.
  assert (search_terms q1 = [] ↔ search_terms q2 = []) as Hnil.
  { split; intros H; apply elem_of_nil_inv; intros t Ht;
      apply Hsame in Ht; rewrite H in Ht; by apply elem_of_nil in Ht. }
  destruct (decide (search_terms q1 = [])) as [H1|H1],
    (decide (search_terms q2 = [])) as [H2|H2]; try tauto.
  do 3 f_equal. apply list_filter_iff. intros ir. unfold has_terms.
  rewrite !Forall_forall. split; intros H t Ht; apply H, Hsame, Ht.
Qed.
End any_frame.

(** ** The query string *)

Lemma isspace_lower c : PyStr.isspace (PyStr.char_lower c) = PyStr.isspace c.
Proof. each_char c; reflexivity. Qed.

Lemma comma_lower c : PyStr.char_lower c = ","%char ↔ c = ","%char.
Proof. each_char c; split; intros H; try discriminate H; reflexivity. Qed.

Lemma lstrip_lower s : PyStr.lstrip (PyStr.lower s) = PyStr.lower (PyStr.lstrip s).
Proof.
  induction s as [|c s IH]; [done|].
  unfold PyStr.lower in *. rewrite fmap_cons. simpl.
  rewrite isspace_lower. by destruct (PyStr.isspace c).
Qed.

Lemma strip_lower s : PyStr.strip (PyStr.lower s) = PyStr.lower (PyStr.strip s).
Proof.
  unfold PyStr.strip, PyStr.rstrip. rewrite lstrip_lower.
  unfold PyStr.lower at 1. rewrite <- fmap_reverse.
  fold (PyStr.lower (reverse (PyStr.lstrip s))).
  rewrite lstrip_lower. unfold PyStr.lower. by rewrite fmap_reverse.
Qed.

Lemma split_nonempty sep s : PyStr.split sep s ≠ [].
Proof.
  destruct s as [|c s]; simpl; [done|].
  destruct (decide (c = sep)); [done|]. by destruct (PyStr.split sep s).
Qed.

Lemma split_lower s :
  PyStr.split ","%char (PyStr.lower s) = PyStr.lower <$> PyStr.split ","%char s.
Proof.
  induction s as [|c s IH]; [done|].
  unfold PyStr.lower in *. rewrite fmap_cons. simpl. rewrite IH.
  destruct (decide (c = ","%char)) as [Hc|Hc].
  - rewrite decide_True by (by apply comma_lower). done.
  - rewrite decide_False by (by rewrite comma_lower).
    pose proof (split_nonempty ","%char s).
    by destruct (PyStr.split ","%char s).
Qed.

Lemma lower_nil s : PyStr.lower s = [] ↔ s = [].
Proof. by destruct s. Qed.

(** The tokenisation, as a function of the pieces between commas. *)
Lemma terms_of_lower_pieces (pieces : list str) :
  (λ s, PyStr.lower (PyStr.strip s))
    <$> filter (λ s, PyStr.truthy (PyStr.strip s)) (PyStr.lower <$> pieces)
  = (λ s, PyStr.lower (PyStr.strip s))
    <$> filter (λ s, PyStr.truthy (PyStr.strip s)) pieces.
Proof.
  induction pieces as [|piece pieces IH]; [done|].
  rewrite fmap_cons, !filter_cons. unfold PyStr.truthy in *.
  rewrite strip_lower.
  destruct (decide (PyStr.strip piece ≠ [])) as [Hp|Hp].
  - rewrite decide_True by (by rewrite lower_nil).
    rewrite !fmap_cons, IH, strip_lower, lower_idemp. done.
  - rewrite decide_False by (by rewrite lower_nil). done.
Qed.

Lemma search_terms_lower q : search_terms (PyStr.lower q) = search_terms q.
Proof. unfold search_terms. rewrite split_lower. apply terms_of_lower_pieces. Qed.

Lemma split_app_sep sep a b :
  PyStr.split sep (a ++ sep :: b) = PyStr.split sep a ++ PyStr.split sep b.
Proof.
  induction a as [|c a IH]; simpl.
  - by rewrite decide_True.
  - rewrite IH. destruct (decide (c = sep)); [done|].
    pose proof (split_nonempty sep a).
    by destruct (PyStr.split sep a).
Qed.

Lemma search_terms_comma a b :
  search_terms (a ++ ","%char :: b) = search_terms a ++ search_terms b.
Proof.
  unfold search_terms. by rewrite split_app_sep, filter_app, fmap_app.
Qed.

Lemma has_terms_app terms1 terms2 r :
  has_terms (terms1 ++ terms2) r ↔ has_terms terms1 r ∧ has_terms terms2 r.
Proof. unfold has_terms. apply Forall_app. Qed.

Lemma filter_sublist_impl {A} (P Q : A → Prop)
    `{!∀ x, Decision (P x)} `{!∀ x, Decision (Q x)} (l : list A) :
  (∀ x, P x → Q x) → filter P l `sublist_of` filter Q l.
Proof.
  intros HPQ.
  replace (filter P l) with (filter P (filter Q l)); [apply sublist_filter|].
  rewrite list_filter_filter. apply list_filter_iff. intros x.
  split; [tauto|]. intros HP. split; [done|by apply HPQ].
Qed.

Section queries.
Variable collection : list Row.
Variables selected_cuisine selected_meal_type selected_difficulty : str.
Variables min_prep_time max_prep_time min_cook_time max_cook_time : Z.

Let ok : Row → Prop :=
  passes selected_cuisine selected_meal_type selected_difficulty
    min_prep_time max_prep_time min_cook_time max_cook_time.

(** X3. The query is case-insensitive: two query strings that are equal
    once lower-cased give the same result, on every frame. *)
Theorem query_case_insensitive (df : DataFrame) q1 q2 :
  PyStr.lower q1 = PyStr.lower q2 →
  recommend_recipes df selected_cuisine selected_meal_type selected_difficulty
    min_prep_time max_prep_time min_cook_time max_cook_time q1
  = recommend_recipes df selected_cuisine selected_meal_type
      selected_difficulty min_prep_time max_prep_time min_cook_time
      max_cook_time q2.
Proof.
  intros Hq. rewrite !recommend_recipes_by_terms.
  rewrite <- (search_terms_lower q1), Hq, search_terms_lower. done.
Qed.

(** X4. A comma joins two queries into their conjunction: the result for
    [a,b] is what the query [b] with the same criteria returns on the result
    of the query [a]. *)
Theorem comma_is_sequential_filtering a b :
  recommend_recipes (RangeIndex collection)
    selected_cuisine selected_meal_type selected_difficulty
    min_prep_time max_prep_time min_cook_time max_cook_time
    (a ++ ","%char :: b)
  = first_result ←
      recommend_recipes (RangeIndex collection)
        selected_cuisine selected_meal_type selected_difficulty
        min_prep_time max_prep_time min_cook_time max_cook_time a;
    recommend_recipes first_result
      selected_cuisine selected_meal_type selected_difficulty
      min_prep_time max_prep_time min_cook_time max_cook_time b.
Proof.
  rewrite !recommend_recipes_unique by apply RangeIndex_unique.
  cbn [mbind option_bind].
  rewrite recommend_recipes_unique.
  2:{ eapply unique_index_sublist;
        [apply sublist_filter|apply RangeIndex_unique]. }
  f_equal. rewrite list_filter_filter. apply list_filter_iff.
  intros ir. rewrite search_terms_comma, has_terms_app. tauto.
Qed.

(** X5. Filtering a result again with the criteria that produced it changes
    nothing. *)
Theorem refiltering_is_identity search_ingredients_str :
  ∃ result,
    recommend_recipes (RangeIndex collection)
      selected_cuisine selected_meal_type selected_difficulty
      min_prep_time max_prep_time min_cook_time max_cook_time
      search_ingredients_str = Some result ∧
    recommend_recipes result
      selected_cuisine selected_meal_type selected_difficulty
      min_prep_time max_prep_time min_cook_time max_cook_time
      search_ingredients_str = Some result.
Proof.
  eexists. split; [apply recommend_recipes_unique, RangeIndex_unique|].
  rewrite recommend_recipes_unique.
  2:{ eapply unique_index_sublist;
        [apply sublist_filter|apply RangeIndex_unique]. }
  f_equal. rewrite list_filter_filter. apply list_filter_iff. tauto.
Qed.
End queries.

(** X6. Narrowing the criteria never adds a recipe and never reorders: when
    each categorical choice is kept or changed from "Any" to a value, each
    time range shrinks, and the search terms grow, the new result is a
    sub-sequence of the old one. *)
Theorem narrower_criteria_sublist (collection : list Row)
    (cuisine1 meal_type1 difficulty1 : str) (min_prep1 max_prep1 min_cook1 max_cook1 : Z)
    (query1 : str)
    (cuisine2 meal_type2 difficulty2 : str) (min_prep2 max_prep2 min_cook2 max_cook2 : Z)
    (query2 : str) :
  cuisine1 = py "Any" ∨ cuisine1 = cuisine2 →
  meal_type1 = py "Any" ∨ meal_type1 = meal_type2 →
  difficulty1 = py "Any" ∨ difficulty1 = difficulty2 →
  (min_prep1 <= min_prep2)%Z → (max_prep2 <= max_prep1)%Z →
  (min_cook1 <= min_cook2)%Z → (max_cook2 <= max_cook1)%Z →
  (∀ t, t ∈ search_terms query1 → t ∈ search_terms query2) →
  ∃ wide narrow,
    recommend_recipes (RangeIndex collection) cuisine1 meal_type1 difficulty1
      min_prep1 max_prep1 min_cook1 max_cook1 query1 = Some wide ∧
    recommend_recipes (RangeIndex collection) cuisine2 meal_type2 difficulty2
      min_prep2 max_prep2 min_cook2 max_cook2 query2 = Some narrow ∧
    narrow `sublist_of` wide.
Proof.
  intros Hc Hm Hd ? ? ? ? Hq. eexists _, _.
  split; [apply recommend_recipes_unique, RangeIndex_unique|].
  split; [apply recommend_recipes_unique, RangeIndex_unique|].
  apply filter_sublist_impl. intros ir [Hterms Hok]. split.
  - unfold has_terms in *. rewrite Forall_forall in *.
    intros t Ht. by apply Hterms, Hq.
  - unfold passes in *. destruct Hok as (Ec & Em & Ed & Ep & Ek).
    repeat split; try lia.
    + intros Hne. destruct Hc as [->| ->]; [done|by apply Ec].
    + intros Hne. destruct Hm as [->| ->]; [done|by apply Em].
    + intros Hne. destruct Hd as [->| ->]; [done|by apply Ed].
Qed.

Lemma narrower_criteria_sublist_witness :
  ∃ wide narrow,
    recommend_recipes (RangeIndex Scenario.collection)
      (py "Any") (py "Any") (py "Any") 0 60 0 60 (py "egg") = Some wide ∧
    recommend_recipes (RangeIndex Scenario.collection)
      (py "Italian") (py "Any") (py "Any") 5 30 10 60 (py "flour, Egg")
    = Some narrow ∧
    narrow `sublist_of` wide.
Proof.
  apply (narrower_criteria_sublist Scenario.collection
           (py "Any") (py "Any") (py "Any") 0 60 0 60 (py "egg")
           (py "Italian") (py "Any") (py "Any") 5 30 10 60 (py "flour, Egg"));
    try (by left); try lia.
  intros t Ht. change (search_terms (py "egg")) with [py "egg"] in Ht.
  apply list_elem_of_singleton in Ht as ->.
  apply (bool_decide_unpack _). by vm_compute.
Defined.

(** X7. A search term finds an ingredient spelled exactly like it if and only
    if the term begins and ends with a letter, a digit or an underscore: the
    word boundary of the pattern holds at the start of the ingredient only
    before a word character and at its end only after one. *)
Theorem exact_match_needs_word_ends (t : str) :
  word_matches t t ↔
  Re.opt_word (head t) = true ∧ Re.opt_word (last t) = true.
Proof.
  unfold word_matches. rewrite search_word_pattern.
  assert (∀ b : bool, Some b = Some true ↔ b = true) as ->
    by (intros b; split; [by intros [= ->]|by intros ->]).
  rewrite search_word_atoms. unfold Re.at_boundary. split.
  - intros (pre & mid & post & Ht & Hm & Hb1 & Hb2).
    pose proof (Forall2_length _ _ _ Hm) as Hlen.
    pose proof (f_equal length Ht) as Hlen'. rewrite !length_app in Hlen'.
    destruct pre, post; simpl in Hlen'; try lia.
    simpl in Ht. rewrite app_nil_r in Ht. subst mid.
    rewrite app_nil_r in Hb1. simpl in Hb1, Hb2.
    rewrite last_or_None, xorb_false_r in Hb2. done.
  - intros [Hh Hl]. exists [], t, [].
    rewrite app_nil_r. simpl. rewrite last_or_None, Hl.
    split; [done|]. split; [apply lower_ignorecase|]. split; [|done].
    by rewrite Hh.
Qed.

Lemma same_terms_same_result_witness :
  recommend_recipes (RangeIndex Scenario.collection)
    (py "Any") (py "Any") (py "Any") 0 60 0 60 (py "egg, flour")
  = recommend_recipes (RangeIndex Scenario.collection)
      (py "Any") (py "Any") (py "Any") 0 60 0 60 (py "flour,egg,egg").
Proof.
  apply (same_terms_same_result (RangeIndex Scenario.collection)
           (py "Any") (py "Any") (py "Any") 0 60 0 60
           (py "egg, flour") (py "flour,egg,egg")).
  intros t.
  change (search_terms (py "egg, flour")) with [py "egg"; py "flour"].
  change (search_terms (py "flour,egg,egg"))
    with [py "flour"; py "egg"; py "egg"].
  rewrite !elem_of_cons, !elem_of_nil. tauto.
Defined.

Lemma query_case_insensitive_witness :
  recommend_recipes (RangeIndex Scenario.collection)
    (py "Any") (py "Any") (py "Any") 0 60 0 60 (py "EGG, Flour")
  = recommend_recipes (RangeIndex Scenario.collection)
      (py "Any") (py "Any") (py "Any") 0 60 0 60 (py "egg, flour").
Proof.
  apply (query_case_insensitive (py "Any") (py "Any") (py "Any") 0 60 0 60
           (RangeIndex Scenario.collection) (py "EGG, Flour") (py "egg, flour")).
  reflexivity.
Defined.

(** ** [load_recipes] *)

Lemma lstrip_clean s :
  match PyStr.lstrip s with c :: _ => PyStr.isspace c = false | [] => True end.
Proof.
  induction s as [|c s IH]; simpl; [done|].
  by destruct (PyStr.isspace c) eqn:Hc.
Qed.

Lemma lstrip_fixed s :
  match s with c :: _ => PyStr.isspace c = false | [] => True end →
  PyStr.lstrip s = s.
Proof. destruct s as [|c s]; simpl; [done|]. by intros ->. Qed.

Lemma lstrip_idemp s : PyStr.lstrip (PyStr.lstrip s) = PyStr.lstrip s.
Proof. apply lstrip_fixed, lstrip_clean. Qed.

Lemma lstrip_suffix s : ∃ dropped, s = dropped ++ PyStr.lstrip s.
Proof.
  induction s as [|c s [dropped IH]]; simpl; [by exists []|].
  destruct (PyStr.isspace c); [|by exists []].
  exists (c :: dropped). simpl. by f_equal.
Qed.

Lemma rstrip_prefix s : ∃ dropped, s = PyStr.rstrip s ++ dropped.
Proof.
  destruct (lstrip_suffix (reverse s)) as [dropped H].
  exists (reverse dropped). unfold PyStr.rstrip.
  rewrite <- reverse_app, <- H. by rewrite reverse_involutive.
Qed.

Lemma rstrip_idemp s : PyStr.rstrip (PyStr.rstrip s) = PyStr.rstrip s.
Proof.
  unfold PyStr.rstrip. by rewrite reverse_involutive, lstrip_idemp.
Qed.

(** Stripping on the right keeps a clean left end. *)
Lemma lstrip_rstrip s :
  match s with c :: _ => PyStr.isspace c = false | [] => True end →
  PyStr.lstrip (PyStr.rstrip s) = PyStr.rstrip s.
Proof.
  intros Hs. apply lstrip_fixed.
  destruct (rstrip_prefix s) as [dropped H].
  destruct (PyStr.rstrip s) as [|c r]; [done|].
  rewrite H in Hs. exact Hs.
Qed.

Lemma strip_idemp s : PyStr.strip (PyStr.strip s) = PyStr.strip s.
Proof.
  unfold PyStr.strip. rewrite lstrip_rstrip by apply lstrip_clean.
  apply rstrip_idemp.
Qed.

Lemma normalize_lower item : PyStr.lower (normalize item) = normalize item.
Proof. apply lower_idemp. Qed.

Lemma normalize_strip item : PyStr.strip (normalize item) = normalize item.
Proof. unfold normalize. by rewrite strip_lower, strip_idemp. Qed.

Lemma RangeIndex_lookup (rows : list Row) (i : nat) :
  RangeIndex rows !! i = (λ r, (i, r)) <$> rows !! i.
Proof.
  unfold RangeIndex. rewrite lookup_zip_with.
  destruct (rows !! i) as [r|] eqn:Hr.
  - rewrite lookup_seq_lt by (by eapply lookup_lt_Some). done.
  - by destruct (seq 0 (length rows) !! i).
Qed.

Lemma fmap_RangeIndex {B} (f : Row → B) (rows : list Row) :
  (λ ir : nat * Row, f ir.2) <$> RangeIndex rows = f <$> rows.
Proof.
  transitivity (f <$> (RangeIndex rows).*2).
  - by rewrite <- list_fmap_compose.
  - by rewrite RangeIndex_rows.
Qed.

Lemma Forall_RangeIndex (P : Row → Prop) (rows : list Row) :
  Forall (λ ir : nat * Row, P ir.2) (RangeIndex rows) ↔ Forall P rows.
Proof.
  rewrite <- (RangeIndex_rows rows) at 2. by rewrite Forall_fmap.
Qed.

(** X8. The derived column of a loaded frame: in every row,
    [ingredients_list] has one entry per ingredient, in the same order; the
    entry is the ingredient stripped and then lower-cased, and it is
    normalized for good: lower-casing it or stripping it again changes
    nothing. *)
Theorem load_recipes_normalizes (records : list Recipe) :
  Forall (λ ir : nat * Row,
    Forall2 (λ item g,
      g = PyStr.lower (PyStr.strip item) ∧
      PyStr.lower g = g ∧ PyStr.strip g = g)
      (ingredients ir.2) (ingredients_list ir.2))
    (load_recipes (Some records)).
Proof.
  unfold load_recipes.
  apply (Forall_RangeIndex (λ r : Row,
    Forall2 (λ item g,
      g = PyStr.lower (PyStr.strip item) ∧
      PyStr.lower g = g ∧ PyStr.strip g = g)
      (ingredients r) (ingredients_list r))).
  rewrite Forall_fmap. apply Forall_forall. intros r _. simpl.
  apply Forall2_fmap_r, Forall_Forall2_diag, Forall_forall.
  intros item _. split; [done|].
  split; [apply normalize_lower|apply normalize_strip].
Qed.

(** ** The sidebar and [get_unique_values] *)

Lemma option_observed (df : DataFrame) (col : column) (v : str) :
  v ∈ get_unique_values df col →
  v = py "Any" ∨ ∃ ir : nat * Row, ir ∈ df ∧ cell col ir.2 = v.
Proof.
  unfold get_unique_values. destruct (negb (empty df)).
  - rewrite elem_of_cons, sorted_Permutation, elem_of_unique, list_elem_of_fmap.
    intros [->|(ir & -> & Hir)]; [by left|right]. by exists ir.
  - rewrite list_elem_of_singleton. by left.
Qed.

Lemma head_get_unique_values (df : DataFrame) (col : column) :
  head (get_unique_values df col) = Some (py "Any").
Proof. unfold get_unique_values. by destruct (negb (empty df)). Qed.

Lemma filter_not_nil {A} (P : A → Prop) `{!∀ x, Decision (P x)} (l : list A) x :
  x ∈ l → P x → filter P l ≠ [].
Proof.
  intros Hx HP. apply (elem_of_not_nil x). by apply list_elem_of_filter.
Qed.

Lemma foldl_max_ge (v : Z) (vs : list Z) :
  (v <= foldl Z.max v vs)%Z ∧ Forall (λ x, (x <= foldl Z.max v vs)%Z) vs.
Proof.
  revert v. induction vs as [|x vs IH]; intros v; simpl.
  - split; [lia|constructor].
  - destruct (IH (Z.max v x)) as [Hv Hvs]. split; [lia|].
    constructor; [lia|done].
Qed.

Lemma slider_upper_covers (df : DataFrame) (minutes : Row → Z) (fallback : Z) :
  ∃ upper, slider_upper df minutes fallback = Some upper ∧
    Forall (λ ir : nat * Row, (minutes ir.2 <= upper)%Z) df.
Proof.
  destruct df as [|ir df].
  - exists fallback. by split; [|constructor].
  - unfold slider_upper. change (empty (ir :: df)) with false.
    cbn [negb]. rewrite fmap_cons. simpl.
    eexists. split; [done|].
    destruct (foldl_max_ge (minutes ir.2)
                ((λ ir : nat * Row, minutes ir.2) <$> df)) as [H1 H2].
    constructor; [done|]. by rewrite Forall_fmap in H2.
Qed.

Section options.
Variable collection : list Row.
Variables min_prep_time max_prep_time min_cook_time max_cook_time : Z.

(** X9. Every option the select boxes offer selects at least one recipe:
    for a non-empty collection and time ranges that cover it, choosing any
    value returned by [get_unique_values] for a column, with the other two
    columns on "Any" and no ingredient query, gives a non-empty result. *)
Theorem every_option_selects_a_recipe :
  collection ≠ [] →
  Forall (λ r : Row,
    (min_prep_time <= prep_time_minutes r <= max_prep_time)%Z ∧
    (min_cook_time <= cook_time_minutes r <= max_cook_time)%Z) collection →
  (∀ v, v ∈ get_unique_values (RangeIndex collection) col_cuisine →
     ∃ result,
       recommend_recipes (RangeIndex collection) v (py "Any") (py "Any")
         min_prep_time max_prep_time min_cook_time max_cook_time []
       = Some result ∧ result ≠ []) ∧
  (∀ v, v ∈ get_unique_values (RangeIndex collection) col_meal_type →
     ∃ result,
       recommend_recipes (RangeIndex collection) (py "Any") v (py "Any")
         min_prep_time max_prep_time min_cook_time max_cook_time []
       = Some result ∧ result ≠ []) ∧
  (∀ v, v ∈ get_unique_values (RangeIndex collection) col_difficulty →
     ∃ result,
       recommend_recipes (RangeIndex collection) (py "Any") (py "Any") v
         min_prep_time max_prep_time min_cook_time max_cook_time []
       = Some result ∧ result ≠ []).
Proof.
  intros Hne Hcover.
  apply (Forall_RangeIndex (λ r : Row,
    (min_prep_time <= prep_time_minutes r <= max_prep_time)%Z ∧
    (min_cook_time <= cook_time_minutes r <= max_cook_time)%Z)) in Hcover.
  rewrite Forall_forall in Hcover.
  assert (∃ ir0, ir0 ∈ RangeIndex collection) as [ir0 Hir0].
  { destruct collection as [|r rest]; [done|]. eexists. by left. }
  repeat split; intros v Hv; rewrite recommend_recipes_no_terms by done;
    (eexists; split; [done|]);
    apply option_observed in Hv as [->|(ir & Hir & Hcell)].
  all: [> apply (filter_not_nil _ _ ir0) | apply (filter_not_nil _ _ ir)
        | apply (filter_not_nil _ _ ir0) | apply (filter_not_nil _ _ ir)
        | apply (filter_not_nil _ _ ir0) | apply (filter_not_nil _ _ ir) ];
    try done.
  all: unfold passes; simpl in *; repeat split; try done;
    try (by apply Hcover); try (by apply (Hcover ir0));
    try (by apply (Hcover ir)).
Qed.
End options.

Lemma every_option_selects_a_recipe_witness :
  (∀ v, v ∈ get_unique_values (RangeIndex Scenario.collection) col_cuisine →
     ∃ result,
       recommend_recipes (RangeIndex Scenario.collection) v (py "Any") (py "Any")
         0 60 0 60 [] = Some result ∧ result ≠ []) ∧
  (∀ v, v ∈ get_unique_values (RangeIndex Scenario.collection) col_meal_type →
     ∃ result,
       recommend_recipes (RangeIndex Scenario.collection) (py "Any") v (py "Any")
         0 60 0 60 [] = Some result ∧ result ≠ []) ∧
  (∀ v, v ∈ get_unique_values (RangeIndex Scenario.collection) col_difficulty →
     ∃ result,
       recommend_recipes (RangeIndex Scenario.collection) (py "Any") (py "Any") v
         0 60 0 60 [] = Some result ∧ result ≠ []).
Proof.
  apply (every_option_selects_a_recipe Scenario.collection 0 60 0 60).
  - by vm_compute.
  - apply (bool_decide_unpack _). by vm_compute.
Defined.

Lemma slider_upper_positive (df : DataFrame) (minutes : Row → Z)
    (fallback upper : Z) :
  (0 < fallback)%Z →
  Forall (λ ir : nat * Row, (0 < minutes ir.2)%Z) df →
  slider_upper df minutes fallback = Some upper → (0 < upper)%Z.
Proof.
  intros Hf Hpos. destruct df as [|ir df].
  - intros [= <-]. done.
  - unfold slider_upper. change (empty (ir :: df)) with false.
    cbn [negb]. rewrite fmap_cons. simpl. intros [= <-].
    apply Forall_cons in Hpos as [Hir _].
    destruct (foldl_max_ge (minutes ir.2)
                ((λ ir : nat * Row, minutes ir.2) <$> df)) as [H1 _].
    lia.
Qed.

(** X10. With the sidebar as it first appears (every select box on its first
    option, both sliders from 0 to the column maximum, an empty search box),
    pressing "Recommend Recipes" stores the whole collection, provided every
    recipe has positive preparation and cooking times. *)
Theorem initial_sidebar_recommends_everything (collection : list Row) :
  Forall (λ r : Row,
    (0 < prep_time_minutes r)%Z ∧ (0 < cook_time_minutes r)%Z) collection →
  ∃ sidebar,
    initial_sidebar (RangeIndex collection) = Some sidebar ∧
    sb_cuisine sidebar = py "Any" ∧
    sb_meal_type sidebar = py "Any" ∧
    sb_difficulty sidebar = py "Any" ∧
    on_recommend (RangeIndex collection) sidebar
    = Some {| recommended_recipes := Some (RangeIndex collection);
              display_count := Some 5 |}.
Proof.
  intros Hpos.
  apply (Forall_RangeIndex (λ r : Row,
    (0 < prep_time_minutes r)%Z ∧ (0 < cook_time_minutes r)%Z)) in Hpos.
  destruct (slider_upper_covers (RangeIndex collection)
              (λ r, prep_time_minutes r) 60) as (prep_upper & Hp & Hpc).
  destruct (slider_upper_covers (RangeIndex collection)
              (λ r, cook_time_minutes r) 90) as (cook_upper & Hc & Hcc).
  assert (0 < prep_upper)%Z as Hpu.
  { eapply (slider_upper_positive _ (λ r, prep_time_minutes r) 60);
      [done| |exact Hp].
    eapply Forall_impl; [exact Hpos|]. by intros ir [? _]. }
  assert (0 < cook_upper)%Z as Hcu.
  { eapply (slider_upper_positive _ (λ r, cook_time_minutes r) 90);
      [done| |exact Hc].
    eapply Forall_impl; [exact Hpos|]. by intros ir [_ ?]. }
  eexists. split.
  { unfold initial_sidebar. cbn [mbind option_bind].
    rewrite !head_get_unique_values. cbn [mbind option_bind].
    rewrite Hp, Hc. cbn [mbind option_bind]. unfold slider.
    rewrite !decide_True by done. reflexivity. }
  repeat split. unfold on_recommend. cbn [sb_cuisine sb_meal_type
    sb_difficulty sb_prep_time sb_cook_time sb_search_ingredients_str fst snd].
  rewrite recommend_recipes_no_terms by done. cbn [mbind option_bind].
  do 3 f_equal. apply filter_all.
  rewrite Forall_forall in *. intros ir Hir.
  specialize (Hpos ir Hir). specialize (Hpc ir Hir). specialize (Hcc ir Hir).
  unfold passes. simpl in *. repeat split; try done; lia.
Qed.

Lemma initial_sidebar_recommends_everything_witness :
  ∃ sidebar,
    initial_sidebar (RangeIndex Scenario.collection) = Some sidebar ∧
    sb_cuisine sidebar = py "Any" ∧
    sb_meal_type sidebar = py "Any" ∧
    sb_difficulty sidebar = py "Any" ∧
    on_recommend (RangeIndex Scenario.collection) sidebar
    = Some {| recommended_recipes := Some (RangeIndex Scenario.collection);
              display_count := Some 5 |}.
Proof.
  apply (initial_sidebar_recommends_everything Scenario.collection).
  apply (bool_decide_unpack _). by vm_compute.
Defined.

(** ** From the displayed ingredients back to a query *)

Lemma split_no_sep sep s : sep ∉ s → PyStr.split sep s = [s].
Proof.
  induction s as [|c s IH]; intros Hs; simpl; [done|].
  apply not_elem_of_cons in Hs as [Hc Hs].
  rewrite decide_False by done. by rewrite IH.
Qed.

Lemma strip_space s : PyStr.strip (" "%char :: s) = PyStr.strip s.
Proof. reflexivity. Qed.

Lemma search_terms_space s : search_terms (" "%char :: s) = search_terms s.
Proof.
  unfold search_terms. simpl.
  pose proof (split_nonempty ","%char s).
  destruct (PyStr.split ","%char s) as [|piece pieces]; [done|].
  rewrite !filter_cons, strip_space.
  destruct (decide (PyStr.truthy (PyStr.strip piece))); [|done].
  by rewrite !fmap_cons, strip_space.
Qed.

Lemma search_terms_one item :
  ","%char ∉ item →
  search_terms item = filter PyStr.truthy [normalize item].
Proof.
  intros Hitem. unfold search_terms. rewrite split_no_sep by done.
  rewrite !filter_cons, !filter_nil. unfold normalize, PyStr.truthy.
  destruct (decide (PyStr.strip item ≠ [])) as [Hs|Hs].
  - rewrite decide_True by (by rewrite lower_nil). done.
  - rewrite decide_False by (by rewrite lower_nil). done.
Qed.

Lemma search_terms_join (items : list str) :
  Forall (λ item, ","%char ∉ item) items →
  search_terms (join (py ", ") items) = filter PyStr.truthy (normalize <$> items).
Proof.
  induction 1 as [|item items Hitem Hitems IH]; [done|].
  destruct items as [|item' items].
  - by apply search_terms_one.
  - change (join (py ", ") (item :: item' :: items))
      with (item ++ ","%char :: " "%char :: join (py ", ") (item' :: items)).
    rewrite search_terms_comma, search_terms_space, IH.
    rewrite search_terms_one by done.
    rewrite (fmap_cons normalize item), (filter_cons _ (normalize item)).
    rewrite filter_cons, filter_nil.
    by destruct (decide (PyStr.truthy (normalize item))).
Qed.

Lemma word_matches_self t :
  Re.opt_word (head t) = true → Re.opt_word (last t) = true →
  word_matches t t.
Proof.
  intros Hh Hl. unfold word_matches. rewrite search_word_pattern. f_equal.
  apply search_word_atoms. exists [], t, [].
  rewrite app_nil_r. simpl. rewrite last_or_None.
  unfold Re.at_boundary. rewrite Hh, Hl.
  split; [done|]. split; [apply lower_ignorecase|done].
Qed.

(** X11. The line [display_recipe] prints for the ingredients reads back as
    the recipe's search terms: when no ingredient contains a comma, the
    text after "**Ingredients:** " tokenizes to the non-empty entries of
    the row's [ingredients_list], in order. *)
Theorem ingredients_line_reads_back (r : Recipe) :
  Forall (λ item, ","%char ∉ item) (ingredients r) →
  (∃ card,
     display_recipe true (with_ingredients_list r) = Some card ∧
     StWrite (py "**Ingredients:** " ++ join (py ", ") (ingredients r))
       ∈ card) ∧
  search_terms (join (py ", ") (ingredients r))
  = filter PyStr.truthy (ingredients_list (with_ingredients_list r)).
Proof.
  intros Hcomma. split; [|by apply search_terms_join].
  eexists. split; [reflexivity|].
  rewrite !elem_of_app. right. right.
  simpl. do 5 right. by left.
Qed.

Lemma ingredients_line_reads_back_witness :
  (∃ card,
     display_recipe true Scenario.D = Some card ∧
     StWrite (py "**Ingredients:** "
              ++ join (py ", ") [py "Chicken breast"; py "rice"]) ∈ card) ∧
  search_terms (join (py ", ") [py "Chicken breast"; py "rice"])
  = filter PyStr.truthy (ingredients_list Scenario.D).
Proof.
  apply (ingredients_line_reads_back (recipe Scenario.D)).
  apply (bool_decide_unpack _). by vm_compute.
Defined.

(** X12. A loaded recipe is found by its own ingredients: if no ingredient
    contains a comma and every non-empty normalized ingredient begins and
    ends with a letter, a digit or an underscore, then the query made of the
    recipe's displayed ingredient line, with "Any" everywhere and ranges
    that cover the recipe, returns the recipe. *)
Theorem recipe_found_by_its_ingredients (records : list Recipe)
    (i : nat) (r : Recipe)
    (min_prep_time max_prep_time min_cook_time max_cook_time : Z) :
  records !! i = Some r →
  Forall (λ item, ","%char ∉ item) (ingredients r) →
  Forall (λ item,
    normalize item ≠ [] →
    Re.opt_word (head (normalize item)) = true ∧
    Re.opt_word (last (normalize item)) = true) (ingredients r) →
  (min_prep_time <= prep_time_minutes r <= max_prep_time)%Z →
  (min_cook_time <= cook_time_minutes r <= max_cook_time)%Z →
  ∃ result,
    recommend_recipes (load_recipes (Some records))
      (py "Any") (py "Any") (py "Any")
      min_prep_time max_prep_time min_cook_time max_cook_time
      (join (py ", ") (ingredients r)) = Some result ∧
    (i, with_ingredients_list r) ∈ result.
Proof.
  intros Hi Hcomma Hword Hprep Hcook. unfold load_recipes.
  rewrite recommend_recipes_unique by apply RangeIndex_unique.
  eexists. split; [done|]. apply list_elem_of_filter. split.
  - split.
    + simpl. rewrite search_terms_join by done. unfold has_terms.
      apply Forall_forall. intros t Ht.
      apply list_elem_of_filter in Ht as [Hne Ht].
      apply Exists_exists. exists t. split; [done|].
      apply list_elem_of_fmap in Ht as (item & -> & Hitem).
      rewrite Forall_forall in Hword.
      destruct (Hword item Hitem Hne). by apply word_matches_self.
    + unfold passes. simpl. done.
  - apply list_elem_of_lookup. exists i.
    by rewrite RangeIndex_lookup, list_lookup_fmap, Hi.
Qed.

Lemma recipe_found_by_its_ingredients_witness :
  ∃ result,
    recommend_recipes (load_recipes (Some (recipe <$> Scenario.larder)))
      (py "Any") (py "Any") (py "Any") 0 60 0 60
      (join (py ", ") (ingredients Scenario.D)) = Some result ∧
    (1, with_ingredients_list (recipe Scenario.D)) ∈ result.
Proof.
  apply (recipe_found_by_its_ingredients (recipe <$> Scenario.larder)
           1 (recipe Scenario.D) 0 60 0 60).
  - reflexivity.
  - apply (bool_decide_unpack _). by vm_compute.
  - repeat constructor; by vm_compute.
  - by vm_compute.
  - by vm_compute.
Defined.

(** ** The result column and its pages *)

Lemma subheaders_app page1 page2 :
  subheaders (page1 ++ page2) = subheaders page1 ++ subheaders page2.
Proof. apply omap_app. Qed.

(** With the [image_url] column present, a recipe is displayed as a card
    that opens with its name and has no button. *)
Lemma display_recipe_card (r : Row) :
  ∃ card,
    display_recipe true r = Some card ∧
    subheaders card = [name r] ∧
    ∀ label, StButton label ∉ card.
Proof.
  eexists. split; [reflexivity|]. split.
  - destruct (image_url r) as [url|]; [|done].
    by destruct (decide (PyStr.truthy url)).
  - intros label. rewrite !elem_of_app.
    destruct (image_url r) as [url|];
      [destruct (decide (PyStr.truthy url))|];
      rewrite ?elem_of_cons, ?elem_of_nil; intros H;
      repeat (destruct H as [H|H]; try discriminate H); done.
Qed.

Lemma display_recipes_cards (rows : DataFrame) :
  ∃ cards,
    mapM (λ ir : nat * Row, display_recipe true ir.2) rows = Some cards ∧
    subheaders (concat cards) = (λ ir : nat * Row, name ir.2) <$> rows ∧
    ∀ label, StButton label ∉ concat cards.
Proof.
  induction rows as [|ir rows (cards & Hcards & Hsub & Hno)].
  - exists []. split; [done|]. split; [done|].
    intros label. apply not_elem_of_nil.
  - destruct (display_recipe_card ir.2) as (card & Hcard & Hname & Hnob).
    exists (card :: cards). split.
    { apply mapM_Some. constructor; [done|]. by apply mapM_Some. }
    change (concat (card :: cards)) with (card ++ concat cards). split.
    + by rewrite subheaders_app, Hname, Hsub.
    + intros label. rewrite elem_of_app.
      intros [H|H]; [by apply Hnob in H|by apply Hno in H].
Qed.

(** A pass of the result column in which "Show More Recipes" is not
    pressed: it shows the first [n] recommendations and offers the button
    exactly when there are more. *)
Lemma col2_shows pressed (result : DataFrame) (n : nat) :
  (pressed = ClickShowMore → ¬ n < length result) →
  ∃ page,
    col2 true pressed
      {| recommended_recipes := Some result; display_count := Some n |}
    = Some ({| recommended_recipes := Some result; display_count := Some n |},
            page, false) ∧
    subheaders page = (λ ir : nat * Row, name ir.2) <$> take n result ∧
    (offers_more page ↔ n < length result).
Proof.
  intros Hpressed. unfold col2.
  cbn [recommended_recipes display_count mbind option_bind].
  destruct result as [|ir rest].
  - eexists. split; [reflexivity|]. split; [by rewrite take_nil|].
    unfold offers_more. rewrite list_elem_of_singleton. simpl.
    split; [discriminate|lia].
  - change (empty (ir :: rest)) with false. cbn [negb].
    destruct (display_recipes_cards (take n (ir :: rest)))
      as (cards & -> & Hsub & Hno).
    cbn [mbind option_bind].
    destruct (decide (n < length (ir :: rest))) as [Hn|Hn].
    + rewrite decide_False by (intros Hp; by apply Hpressed).
      eexists. split; [reflexivity|]. split.
      * rewrite subheaders_app. simpl. rewrite Hsub.
        by rewrite app_nil_r.
      * unfold offers_more. split; [done|]. intros _.
        apply elem_of_app. right. by left.
    + eexists. split; [reflexivity|]. split.
      * simpl. by rewrite Hsub.
      * unfold offers_more. split; [|done]. intros H.
        apply elem_of_cons in H as [H|H]; [discriminate H|].
        by apply Hno in H.
Qed.

(** A pass in which "Show More Recipes" is pressed raises the display count
    by five and asks for a rerun. *)
Lemma col2_more (result : DataFrame) (n : nat) :
  n < length result →
  ∃ page,
    col2 true ClickShowMore
      {| recommended_recipes := Some result; display_count := Some n |}
    = Some ({| recommended_recipes := Some result;
               display_count := Some (n + 5) |}, page, true).
Proof.
  intros Hn. unfold col2.
  cbn [recommended_recipes display_count mbind option_bind].
  destruct result as [|ir rest]; [simpl in Hn; lia|].
  change (empty (ir :: rest)) with false. cbn [negb].
  destruct (display_recipes_cards (take n (ir :: rest))) as (cards & -> & _).
  cbn [mbind option_bind].
  rewrite decide_True by done. rewrite decide_True by done. by eexists.
Qed.

Lemma subheaders_main_pass second :
  subheaders (StMarkdown (py "### Find Your Next Delicious Meal!")
              :: [StButton (py "Recommend Recipes"); StButton (py "Surprise Me!")]
              ++ second)
  = subheaders second.
Proof. reflexivity. Qed.

Lemma offers_more_main_pass second :
  offers_more (StMarkdown (py "### Find Your Next Delicious Meal!")
               :: [StButton (py "Recommend Recipes"); StButton (py "Surprise Me!")]
               ++ second)
  ↔ offers_more second.
Proof.
  unfold offers_more. simpl. rewrite !elem_of_cons.
  split; [|tauto]. intros [H|[H|[H|H]]]; [discriminate H| | |done].
  - injection H as H. vm_compute in H. discriminate H.
  - injection H as H. vm_compute in H. discriminate H.
Qed.

(** A whole pass that ends in a state with recommendations and in which
    "Show More Recipes" is not pressed. *)
Lemma main_pass_shows (df : DataFrame) sidebar pressed
    (session_state : SessionState) (result : DataFrame) (n : nat) :
  col1 df sidebar pressed session_state
  = Some ({| recommended_recipes := Some result; display_count := Some n |},
          [StButton (py "Recommend Recipes"); StButton (py "Surprise Me!")]) →
  (pressed = ClickShowMore → ¬ n < length result) →
  ∃ page,
    main_pass df true sidebar pressed session_state
    = Some ({| recommended_recipes := Some result; display_count := Some n |},
            page, false) ∧
    subheaders page = (λ ir : nat * Row, name ir.2) <$> take n result ∧
    (offers_more page ↔ n < length result).
Proof.
  intros Hcol1 Hpressed. unfold main_pass. rewrite Hcol1.
  cbn [mbind option_bind].
  destruct (col2_shows pressed result n Hpressed) as (page & -> & Hsub & Hmore).
  cbn [mbind option_bind]. eexists. split; [reflexivity|]. split.
  - by rewrite subheaders_main_pass.
  - by rewrite offers_more_main_pass.
Qed.

Lemma press_all_snoc step actions action session_state :
  press_all step (actions ++ [action]) session_state
  = '(st, _) ← press_all step actions session_state;
    step action.1 action.2 st.
Proof. unfold press_all. by rewrite foldl_snoc. Qed.

Lemma press_all_one step action session_state :
  press_all step [action] session_state
  = step action.1 action.2 session_state.
Proof. reflexivity. Qed.

Lemma main_area_recommend (df : DataFrame) sidebar session_state result :
  recommend_recipes df
    (sb_cuisine sidebar) (sb_meal_type sidebar) (sb_difficulty sidebar)
    (sb_prep_time sidebar).1 (sb_prep_time sidebar).2
    (sb_cook_time sidebar).1 (sb_cook_time sidebar).2
    (sb_search_ingredients_str sidebar) = Some result →
  ∃ page,
    main_area df true sidebar ClickRecommend session_state
    = Some ({| recommended_recipes := Some result; display_count := Some 5 |},
            page) ∧
    subheaders page = (λ ir : nat * Row, name ir.2) <$> take 5 result ∧
    (offers_more page ↔ 5 < length result).
Proof.
  intros Hresult.
  destruct (main_pass_shows df sidebar ClickRecommend session_state result 5)
    as (page & Hpass & Hpage); [|done|].
  { unfold col1, on_recommend. by rewrite Hresult. }
  exists page. split; [|done]. unfold main_area. by rewrite Hpass.
Qed.

Lemma main_area_show_more (df : DataFrame) sidebar (result : DataFrame) (n : nat) :
  n < length result →
  ∃ page,
    main_area df true sidebar ClickShowMore
      {| recommended_recipes := Some result; display_count := Some n |}
    = Some ({| recommended_recipes := Some result;
               display_count := Some (n + 5) |}, page) ∧
    subheaders page = (λ ir : nat * Row, name ir.2) <$> take (n + 5) result ∧
    (offers_more page ↔ n + 5 < length result).
Proof.
  intros Hn.
  destruct (col2_more result n Hn) as (first_page & Hmore).
  destruct (main_pass_shows df sidebar NoClick
              {| recommended_recipes := Some result;
                 display_count := Some (n + 5) |} result (n + 5))
    as (page & Hpass & Hpage); [done|done|].
  assert (∃ pressed_page,
    main_pass df true sidebar ClickShowMore
      {| recommended_recipes := Some result; display_count := Some n |}
    = Some ({| recommended_recipes := Some result;
               display_count := Some (n + 5) |}, pressed_page, true))
    as [pressed_page Hpressed].
  { unfold main_pass.
    change (col1 df sidebar ClickShowMore
              {| recommended_recipes := Some result; display_count := Some n |})
      with (Some ({| recommended_recipes := Some result;
                     display_count := Some n |},
                  [StButton (py "Recommend Recipes");
                   StButton (py "Surprise Me!")])).
    cbv beta iota delta [mbind option_bind]. rewrite Hmore. by eexists. }
  exists page. split; [|done]. unfold main_area.
  rewrite Hpressed. cbv beta iota delta [mbind option_bind].
  by rewrite Hpass.
Qed.

(** X13. Pagination, for a frame that has the [image_url] column: after
    "Recommend Recipes" and [k] presses of "Show More Recipes" (each
    possible only while the button is offered), the session still holds the
    same result, the page shows the first [5 + 5k] recipes of it in order,
    and the button is offered exactly when recipes remain; so every recipe
    of the result is reached and none is skipped. *)
Theorem show_more_pages (df : DataFrame) (sidebar sidebar' : Sidebar)
    (session_state : SessionState) :
  ∃ result,
    recommend_recipes df
      (sb_cuisine sidebar) (sb_meal_type sidebar) (sb_difficulty sidebar)
      (sb_prep_time sidebar).1 (sb_prep_time sidebar).2
      (sb_cook_time sidebar).1 (sb_cook_time sidebar).2
      (sb_search_ingredients_str sidebar) = Some result ∧
    ∀ k, k = 0 ∨ 5 * k < length result →
      ∃ page,
        press_all (main_area df true)
          ((sidebar, ClickRecommend) :: replicate k (sidebar', ClickShowMore))
          session_state
        = Some ({| recommended_recipes := Some result;
                   display_count := Some (5 + 5 * k) |}, page) ∧
        subheaders page
        = (λ ir : nat * Row, name ir.2) <$> take (5 + 5 * k) result ∧
        (offers_more page ↔ 5 + 5 * k < length result).
Proof.
  destruct (recommend_recipes_total df
      (sb_cuisine sidebar) (sb_meal_type sidebar) (sb_difficulty sidebar)
      (sb_prep_time sidebar).1 (sb_prep_time sidebar).2
      (sb_cook_time sidebar).1 (sb_cook_time sidebar).2
      (sb_search_ingredients_str sidebar)) as [result Hresult].
  exists result. split; [done|].
  induction k as [|k IH]; intros Hk.
  - rewrite press_all_one. cbn [fst snd replicate].
    by apply main_area_recommend.
  - destruct IH as (page & Hrun & _); [lia|].
    change ((sidebar, ClickRecommend) :: replicate (S k) (sidebar', ClickShowMore))
      with ([(sidebar, ClickRecommend)] ++ replicate (S k) (sidebar', ClickShowMore)).
    rewrite replicate_S_end, app_assoc, press_all_snoc.
    change ([(sidebar, ClickRecommend)] ++ replicate k (sidebar', ClickShowMore))
      with ((sidebar, ClickRecommend) :: replicate k (sidebar', ClickShowMore)).
    rewrite Hrun. cbn [mbind option_bind fst snd].
    replace (5 + 5 * S k) with (5 + 5 * k + 5) by lia.
    apply main_area_show_more. lia.
Qed.

Lemma surprise_me_picks (row : nat * Row) (df : DataFrame) draw session_state :
  ∃ picked,
    picked ∈ row :: df ∧
    surprise_me (row :: df) draw session_state
    = Some ({| recommended_recipes := Some [picked];
               display_count := Some 1 |}, Shown).
Proof.
  unfold surprise_me, sample1.
  destruct (lookup_lt_is_Some_2 (row :: df) (draw `mod` length (row :: df)))
    as [picked Hpicked].
  { by apply Nat.mod_upper_bound. }
  exists picked. split; [by eapply list_elem_of_lookup_2|].
  change (empty (row :: df)) with false. cbn [negb]. by rewrite Hpicked.
Qed.

(** X14. After "Surprise Me!" on a non-empty frame that has the [image_url]
    column, the page shows exactly one recipe, a member of the collection,
    and no "Show More Recipes" button, whatever the session held before. *)
Theorem surprise_shows_one_recipe (row : nat * Row) (df : DataFrame)
    (sidebar : Sidebar) (draw : nat) (session_state : SessionState) :
  ∃ picked page,
    picked ∈ row :: df ∧
    main_area (row :: df) true sidebar (ClickSurprise draw) session_state
    = Some ({| recommended_recipes := Some [picked];
               display_count := Some 1 |}, page) ∧
    subheaders page = [name picked.2] ∧
    ¬ offers_more page.
Proof.
  destruct (surprise_me_picks row df draw session_state)
    as (picked & Hin & Hpick).
  destruct (main_pass_shows (row :: df) sidebar (ClickSurprise draw)
              session_state [picked] 1)
    as (page & Hpass & Hsub & Hmore); [|done|].
  { unfold col1. by rewrite Hpick. }
  exists picked, page. split; [done|]. split.
  - unfold main_area. by rewrite Hpass.
  - split; [done|]. rewrite Hmore. simpl. lia.
Qed.

(** ** When the main area raises and when it does not *)

Lemma col2_counted pressed session_state :
  counted session_state →
  ∃ session_state' page rerun,
    col2 true pressed session_state = Some (session_state', page, rerun) ∧
    counted session_state'.
Proof.
  destruct session_state as [[result|] count]; unfold counted; simpl.
  - intros [n ->].
    destruct (decide (pressed = ClickShowMore ∧ n < length result))
      as [[-> Hn]|Hno].
    + destruct (col2_more result n Hn) as (page & ->).
      eexists _, _, _. split; [done|]. simpl. by eexists.
    + destruct (col2_shows pressed result n) as (page & -> & _); [tauto|].
      eexists _, _, _. split; [done|]. simpl. by eexists.
  - intros _. by eexists _, _, _.
Qed.

Lemma col1_counted (df : DataFrame) sidebar pressed session_state :
  counted session_state →
  ∃ session_state' page,
    col1 df sidebar pressed session_state = Some (session_state', page) ∧
    counted session_state'.
Proof.
  intros Hc. destruct pressed as [| |draw|]; simpl.
  - by eexists _, _.
  - unfold on_recommend.
    destruct (recommend_recipes_total df
      (sb_cuisine sidebar) (sb_meal_type sidebar) (sb_difficulty sidebar)
      (sb_prep_time sidebar).1 (sb_prep_time sidebar).2
      (sb_cook_time sidebar).1 (sb_cook_time sidebar).2
      (sb_search_ingredients_str sidebar)) as [result ->].
    eexists _, _. split; [done|]. unfold counted. simpl. by eexists.
  - destruct df as [|row df].
    + by eexists _, _.
    + destruct (surprise_me_picks row df draw session_state)
        as (picked & _ & ->).
      eexists _, _. split; [done|]. unfold counted. simpl. by eexists.
  - by eexists _, _.
Qed.

Lemma main_pass_counted (df : DataFrame) sidebar pressed session_state :
  counted session_state →
  ∃ session_state' page rerun,
    main_pass df true sidebar pressed session_state
    = Some (session_state', page, rerun) ∧
    counted session_state'.
Proof.
  intros Hc. unfold main_pass.
  destruct (col1_counted df sidebar pressed session_state Hc)
    as (st1 & page1 & -> & Hc1).
  cbn [mbind option_bind].
  destruct (col2_counted pressed st1 Hc1) as (st2 & page2 & rerun & -> & Hc2).
  cbn [mbind option_bind]. by eexists _, _, _.
Qed.

Lemma main_area_counted (df : DataFrame) sidebar pressed session_state :
  counted session_state →
  ∃ session_state' page,
    main_area df true sidebar pressed session_state
    = Some (session_state', page) ∧
    counted session_state'.
Proof.
  intros Hc. unfold main_area.
  destruct (main_pass_counted df sidebar pressed session_state Hc)
    as (st1 & page1 & rerun & -> & Hc1).
  cbn [mbind option_bind]. destruct rerun; [|by eexists _, _].
  destruct (main_pass_counted df sidebar NoClick st1 Hc1)
    as (st2 & page2 & rerun & -> & Hc2).
  by eexists _, _.
Qed.

(** X15. The main area (lines 129-165) never raises on a frame that has the
    [image_url] column: from a new session, for every frame and every
    sequence of values returned by the sidebar and of button presses, each
    run of the main area produces a page; and the session keeps the
    invariant the result column relies on, that recommendations never come
    without a display count.  The sidebar's own widgets (lines 100-127) are
    not part of the main area; their values are taken as given. *)
Theorem main_area_never_raises (df : DataFrame)
    (actions : list (Sidebar * click)) :
  ∃ session_state page,
    press_all (main_area df true) actions new_session
    = Some (session_state, page) ∧
    counted session_state.
Proof.
  induction actions as [|action actions IH] using rev_ind.
  - by eexists _, _.
  - destruct IH as (st & page & Hrun & Hc).
    rewrite press_all_snoc, Hrun. cbn [mbind option_bind].
    by apply main_area_counted.
Qed.

Lemma col2_missing_column pressed (result : DataFrame) (n : nat) :
  result ≠ [] →
  col2 false pressed
    {| recommended_recipes := Some result; display_count := Some (S n) |}
  = None.
Proof.
  intros Hne. destruct result as [|ir rest]; [done|]. reflexivity.
Qed.

(** X19. The optional key is not optional for the whole file: when no
    object has [image_url], so that the frame has no such column, every run
    that has a recipe to show raises [KeyError] in [display_recipe]; this
    happens on "Recommend Recipes" with a non-empty result and on every
    "Surprise Me!". *)
Theorem missing_image_column_raises (sidebar : Sidebar)
    (session_state : SessionState) :
  (∀ (df result : DataFrame),
     recommend_recipes df
       (sb_cuisine sidebar) (sb_meal_type sidebar) (sb_difficulty sidebar)
       (sb_prep_time sidebar).1 (sb_prep_time sidebar).2
       (sb_cook_time sidebar).1 (sb_cook_time sidebar).2
       (sb_search_ingredients_str sidebar) = Some result →
     result ≠ [] →
     main_area df false sidebar ClickRecommend session_state = None) ∧
  (∀ (row : nat * Row) (df : DataFrame) draw,
     main_area (row :: df) false sidebar (ClickSurprise draw) session_state
     = None).
Proof.
  split.
  - intros df result Hresult Hne. unfold main_area, main_pass, col1, on_recommend.
    rewrite Hresult. cbn [mbind option_bind].
    by rewrite col2_missing_column.
  - intros row df draw.
    destruct (surprise_me_picks row df draw session_state)
      as (picked & _ & Hpick).
    unfold main_area, main_pass, col1. rewrite Hpick.
    cbn [mbind option_bind]. by rewrite col2_missing_column.
Qed.

(** ** Further edge cases *)

(** X16. The options of a select box repeat no value, except that "Any"
    appears twice when some recipe has the literal value "Any" in that
    column: the list returned by [get_unique_values] is duplicate-free
    exactly when no row has "Any" there. *)
Theorem options_distinct_unless_any (df : DataFrame) (col : column) :
  NoDup (get_unique_values df col) ↔
  ∀ ir : nat * Row, ir ∈ df → cell col ir.2 ≠ py "Any".
Proof.
  unfold get_unique_values, empty. destruct df as [|ir0 df0] eqn:Hdf.
  - simpl. split.
    + intros _ ir Hir. by apply elem_of_nil in Hir.
    + intros _. apply NoDup_singleton.
  - rewrite bool_decide_eq_false_2 by done. cbn [negb]. rewrite <- Hdf.
    rewrite NoDup_cons, sorted_Permutation, elem_of_unique, list_elem_of_fmap.
    split.
    + intros [Hany _] ir Hir Hcell. apply Hany. by exists ir.
    + intros Hno. split; [|apply NoDup_unique_from].
      intros (ir & Hcell & Hir). by apply (Hno ir).
Qed.

Lemma strip_subseteq s : PyStr.strip s ⊆ s.
Proof.
  unfold PyStr.strip.
  destruct (lstrip_suffix s) as [dropped Hl].
  destruct (rstrip_prefix (PyStr.lstrip s)) as [dropped' Hr].
  intros c Hc. rewrite Hl, Hr, !elem_of_app. tauto.
Qed.

(** X17. What the tokenisation never yields: every search term is
    non-empty, lower-case, free of surrounding white space and free of
    commas, whatever the query string. *)
Theorem search_terms_are_normalized (search_ingredients_str : str) :
  Forall (λ t,
    t ≠ [] ∧ PyStr.lower t = t ∧ PyStr.strip t = t ∧ ","%char ∉ t)
    (search_terms search_ingredients_str).
Proof.
  unfold search_terms. rewrite Forall_fmap. apply Forall_forall.
  intros piece Hpiece. apply list_elem_of_filter in Hpiece as [Htruthy Hpiece].
  simpl. repeat split.
  - by rewrite lower_nil.
  - apply lower_idemp.
  - by rewrite strip_lower, strip_idemp.
  - assert (Forall (λ _ : ascii, True) search_ingredients_str) as Hall
      by (by apply Forall_forall).
    pose proof (split_pieces _ ","%char _ Hall) as Hsplit.
    rewrite Forall_forall in Hsplit. specialize (Hsplit piece Hpiece).
    rewrite Forall_forall in Hsplit.
    unfold PyStr.lower. intros Hc.
    apply list_elem_of_fmap in Hc as (c & Hcomma & Hc).
    symmetry in Hcomma. apply comma_lower in Hcomma as ->.
    apply strip_subseteq in Hc. by destruct (Hsplit _ Hc).
Qed.

Lemma at_boundary_differ prev next :
  Re.at_boundary prev next = true ↔ Re.opt_word prev ≠ Re.opt_word next.
Proof.
  unfold Re.at_boundary.
  destruct (Re.opt_word prev), (Re.opt_word next); simpl; split; done.
Qed.

(** X18. The matcher in full, for lower-cased text whose characters all lie
    below U+0100 (the characters of [str]): a non-empty term matches an
    ingredient exactly when it occurs in it at a place where, at each end of
    the occurrence, the character inside and the character outside differ
    in being a word character (the ends of the ingredient count as
    non-word).  Beyond U+00FF [re.IGNORECASE] also equates characters that
    [str.lower] keeps apart, and the statement does not extend. *)
Theorem word_matches_at_boundaries (t g : str) :
  t ≠ [] → PyStr.lower t = t → PyStr.lower g = g →
  word_matches t g ↔
  ∃ pre post, g = pre ++ t ++ post ∧
    Re.opt_word (last pre) ≠ Re.opt_word (head t) ∧
    Re.opt_word (last t) ≠ Re.opt_word (head post).
Proof.
  intros Hne Ht Hg. unfold word_matches. rewrite search_word_pattern.
  assert (∀ b : bool, Some b = Some true ↔ b = true) as ->
    by (intros b; split; [by intros [= ->]|by intros ->]).
  rewrite search_word_atoms. split.
  - intros (pre & mid & post & -> & Hm & Hb1 & Hb2).
    apply ignorecase_lower in Hm. rewrite Ht in Hm.
    apply lower_part in Hg. rewrite Hg in Hm. subst mid.
    exists pre, post. split; [done|].
    rewrite last_or_ne in Hb2 by done.
    apply at_boundary_differ in Hb1, Hb2.
    split; [|done]. by destruct t.
  - intros (pre & post & -> & Hb1 & Hb2).
    exists pre, t, post. split; [done|]. split; [apply lower_ignorecase|].
    rewrite last_or_ne by done. rewrite !at_boundary_differ.
    split; [|done]. by destruct t.
Qed.

Lemma word_matches_at_boundaries_witness :
  word_matches (py "1%") (py "1%milk") ↔
  ∃ pre post, py "1%milk" = pre ++ py "1%" ++ post ∧
    Re.opt_word (last pre) ≠ Re.opt_word (head (py "1%")) ∧
    Re.opt_word (last (py "1%")) ≠ Re.opt_word (head post).
Proof.
  apply (word_matches_at_boundaries (py "1%") (py "1%milk"));
    by vm_compute.
Defined.

(** ** The pages on the scenario *)

(** Seven recipes: five on the first page, all seven after one press of
    "Show More Recipes". *)
Example scenario_pages :
  (λ '(st, page), (display_count st, subheaders page))
    <$> press_all
          (main_area (RangeIndex (Scenario.collection ++ Scenario.larder)) true)
          [(scenario_sidebar, ClickRecommend)] new_session
  = Some (Some 5, py <$> ["A"; "B"; "C"; "B"; "D"]) ∧
  (λ '(st, page), (display_count st, subheaders page))
    <$> press_all
          (main_area (RangeIndex (Scenario.collection ++ Scenario.larder)) true)
          [(scenario_sidebar, ClickRecommend); (scenario_sidebar, ClickShowMore)]
          new_session
  = Some (Some 10, py <$> ["A"; "B"; "C"; "B"; "D"; "E"; "F"]).
Proof. by vm_compute. Qed.

Example scenario_missing_image_column :
  main_area (RangeIndex Scenario.collection) false scenario_sidebar
    ClickRecommend new_session = None.
Proof. by vm_compute. Qed.
